(** * Event API core: owner resolution, visibility filter, lifecycle checks
    and side-effect dispatch of [app/api/events.py]

  The development is a shallow embedding of the functions of
  [app/api/events.py].  Python dictionaries indexed by route parameters
  ([view_kwargs]) are finite maps; the deserialized attribute set of an
  event ([data]) is a record with one three-valued field per attribute
  (key absent, key bound to [None], key bound to a value); raised
  exceptions are the error side of a result monad; writes to the
  session and submissions to the task queue are threaded through an
  explicit world. *)

From Stdlib Require Import ZArith String List Bool Lia.
From stdpp Require Import base option gmap strings list sorting.
Import ListNotations.

Local Open Scope string_scope.
Local Open Scope Z_scope.

(** ** Python values, exceptions and the result monad *)
Module Py.

(** Values carried by [view_kwargs]: route parameters and the resolved
    event id. *)
Inductive val : Type :=
| VNone
| VInt (n : Z)
| VStr (s : string).

Global Instance val_eq_dec : EqDecision val.
Proof. solve_decision. Defined.

(** Python truthiness, [bool(v)]. *)
Definition truthy (v : val) : bool :=
  match v with
  | VNone => false
  | VInt n => negb (n =? 0)
  | VStr s => negb (String.eqb s "")
  end.

(** [v is not None]. *)
Definition is_not_none (v : val) : bool :=
  match v with
  | VNone => false
  | _ => true
  end.

(** [d.get(k)]: [None] when the key is absent. *)
Definition dict_get (d : gmap string val) (k : string) : val :=
  default VNone (d !! k).

(** A nullable integer column read into a Python value. *)
Definition of_column (c : option Z) : val :=
  match c with
  | Some n => VInt n
  | None => VNone
  end.

(** The exceptions raised by the module, with the [source] dictionary
    reduced to the value of its single entry, and those Python itself
    raises on a missing key, on an attribute of [None] or in [int()].
    The detail of [ObjectNotFound] is kept as its format string and the
    arguments of [format]. *)
Inductive error : Type :=
| ForbiddenError (source detail : string)
| ConflictError (pointer detail : string)
| UnprocessableEntityError (pointer detail : string)
| ObjectNotFound (parameter detail : string) (args : list val)
| KeyError (key : string)
| AttributeError (attribute : string)
| TypeError
| ValueError.

Inductive result (A : Type) : Type :=
| Ok (a : A)
| Raise (e : error).
Global Arguments Ok {A} a.
Global Arguments Raise {A} e.

Global Instance result_ret : MRet result := fun A a => Ok a.
Global Instance result_bind : MBind result := fun A B f m =>
  match m with
  | Ok a => f a
  | Raise e => Raise e
  end.

(** One attribute of a deserialized payload: the key is absent, bound to
    [None], or bound to a value of the attribute's type. *)
Inductive field (A : Type) : Type :=
| Absent
| Null
| Val (a : A).
Global Arguments Absent {A}.
Global Arguments Null {A}.
Global Arguments Val {A} a.

(** [k in data] *)
Definition contains {A} (f : field A) : bool :=
  match f with
  | Absent => false
  | _ => true
  end.

(** [data.get(k)] *)
Definition get {A} (f : field A) : option A :=
  match f with
  | Val a => Some a
  | _ => None
  end.

(** [data[k] = x] for an attribute read from a nullable column. *)
Definition store {A} (x : option A) : field A :=
  match x with
  | Some a => Val a
  | None => Null
  end.

(** Truthiness of an optional string: [None] and [''] are false. *)
Definition str_truthy (s : option string) : bool :=
  match s with
  | Some s => negb (String.eqb s "")
  | None => false
  end.

(** Truthiness of an optional datetime: every datetime is true. *)
Definition dt_truthy (t : option Z) : bool :=
  match t with
  | Some _ => true
  | None => false
  end.

(** [a == b] on optional strings and optional datetimes. *)
Definition str_eqb (a b : option string) : bool :=
  bool_decide (a = b).
Definition dt_eqb (a b : option Z) : bool :=
  bool_decide (a = b).

End Py.
Import Py.


(** [d[k]]: raises [KeyError] when the key is absent. *)
Definition dict_index (d : gmap string val) (k : string) : result val :=
  match d !! k with
  | Some v => Ok v
  | None => Raise (KeyError k)
  end.

(** ** Data model *)

(** The columns of [Event] read by this module.  Datetimes are instants on
    the integer time line (microseconds since the epoch, the resolution of
    Python's [datetime]); [orders] is [len(event.orders)]. *)
Module Event.
Record t : Type := mk {
  id : Z;
  name : option string;
  state : option string;
  starts_at : option Z;
  ends_at : option Z;
  deleted_at : option Z;
  schedule_published_on : option Z;
  original_image_url : option string;
  ical_url : option string;
  xcal_url : option string;
  pentabarf_url : option string;
  event_type_id : option Z;
  event_topic_id : option Z;
  event_sub_topic_id : option Z;
  discount_code_id : option Z;
  orders : nat
}.

(** [event.deleted_at = x] *)
Definition set_deleted_at (x : option Z) (e : t) : t :=
  mk (id e) (name e) (state e) (starts_at e) (ends_at e) x
     (schedule_published_on e) (original_image_url e) (ical_url e)
     (xcal_url e) (pentabarf_url e) (event_type_id e) (event_topic_id e)
     (event_sub_topic_id e) (discount_code_id e) (orders e).

(** The three assignments of [clear_export_urls]. *)
Definition clear_urls (e : t) : t :=
  mk (id e) (name e) (state e) (starts_at e) (ends_at e) (deleted_at e)
     (schedule_published_on e) (original_image_url e) None None None
     (event_type_id e) (event_topic_id e) (event_sub_topic_id e)
     (discount_code_id e) (orders e).
End Event.

(** The attribute set [data] handed over by the schema: the attributes
    this module reads or assigns. *)
Module Data.
Record t : Type := mk {
  name : field string;
  state : field string;
  starts_at : field Z;
  ends_at : field Z;
  deleted_at : field Z;
  original_image_url : field string
}.

Definition set_starts_at (x : field Z) (d : t) : t :=
  mk (name d) (state d) x (ends_at d) (deleted_at d) (original_image_url d).
Definition set_ends_at (x : field Z) (d : t) : t :=
  mk (name d) (state d) (starts_at d) x (deleted_at d) (original_image_url d).
Definition set_state (x : field string) (d : t) : t :=
  mk (name d) x (starts_at d) (ends_at d) (deleted_at d) (original_image_url d).
End Data.

(** Modelled from the spec: the role names of [app.models.user], "one of
    owner, organizer, co-organizer, registrar, moderator, marketer,
    sales-admin, track-organizer, attendee", as nine distinct constants. *)
Inductive RoleName : Type :=
| OWNER | ORGANIZER | COORGANIZER | TRACK_ORGANIZER | REGISTRAR
| MODERATOR | MARKETER | SALES_ADMIN | ATTENDEE.

Global Instance RoleName_eq_dec : EqDecision RoleName.
Proof. solve_decision. Defined.

(** A row of [User]: its id, its email and the two capabilities consulted
    by [validate_event]. *)
Module User.
Record t : Type := mk {
  id : Z;
  email : string;
  can_create_event : bool;
  can_publish_event : bool
}.
End User.

(** A row of [UsersEventsRoles] joined with the name of its role. *)
Module UsersEventsRoles.
Record t : Type := mk {
  user_id : Z;
  event_id : Z;
  role : RoleName
}.
End UsersEventsRoles.

(** The model classes whose rows [get_id] fetches. *)
Module Model.
Inductive t : Type :=
| Event | Sponsor | UserFavouriteEvent | EventCopyright | Track
| SessionType | FaqType | EventInvoice | DiscountCode | Session
| SocialLink | Tax | StripeAuthorization | SpeakersCall | Ticket
| TicketTag | RoleInvite | UsersEventsRoles | AccessCode | Speaker
| EmailNotification | Microlocation | TicketHolder | CustomForms | Faq
| Order | Feedback.

(** [model.__name__] *)
Definition class_name (m : t) : string :=
  match m with
  | Event => "Event" | Sponsor => "Sponsor"
  | UserFavouriteEvent => "UserFavouriteEvent"
  | EventCopyright => "EventCopyright" | Track => "Track"
  | SessionType => "SessionType" | FaqType => "FaqType"
  | EventInvoice => "EventInvoice" | DiscountCode => "DiscountCode"
  | Session => "Session" | SocialLink => "SocialLink" | Tax => "Tax"
  | StripeAuthorization => "StripeAuthorization"
  | SpeakersCall => "SpeakersCall" | Ticket => "Ticket"
  | TicketTag => "TicketTag" | RoleInvite => "RoleInvite"
  | UsersEventsRoles => "UsersEventsRoles" | AccessCode => "AccessCode"
  | Speaker => "Speaker" | EmailNotification => "EmailNotification"
  | Microlocation => "Microlocation" | TicketHolder => "TicketHolder"
  | CustomForms => "CustomForms" | Faq => "Faq" | Order => "Order"
  | Feedback => "Feedback"
  end.
End Model.

(** The column a row is fetched by. *)
Inductive Column : Type :=
| col_id
| col_identifier.

(** What [get_id] reads of a fetched row: its primary key and its nullable
    reference to an event. *)
Record Row : Type := mkRow {
  row_id : Z;
  row_event_id : option Z
}.

(** The persisted state read by the module.  [fetch m c v] is the row of
    [m] whose column [c] equals [v] ([query(m).filter(c == v).one()],
    [None] for [NoResultFound]); [users v] is
    [User.query.filter_by(id=v).first()]; [owner_role] is
    [Role.query.filter_by(name=OWNER).first()], reduced to its
    [title_name]; [roles] is the table of role assignments. *)
Record DB : Type := mkDB {
  fetch : Model.t -> Column -> val -> option Row;
  users : val -> option User.t;
  owner_role : option string;
  roles : list UsersEventsRoles.t
}.

(** Modelled from the spec: the caller identity of
    [current_caller_identity() -> {id, is_staff, is_authenticated}].
    [get_jwt_identity() is None] and [not is_logged_in()] both hold of
    [Anonymous] and of no other caller. *)
Inductive Caller : Type :=
| Anonymous
| Authenticated (uid : Z) (is_staff : bool).

(** The request: the caller, whether ['GET' in request.method], the
    answers of [has_access] (of [app.api.helpers.permission_manager]) for
    the four permissions asked here, and what [int()] returns on a string
    route parameter. *)
Record Request : Type := mkRequest {
  caller : Caller;
  method_has_GET : bool;
  is_admin : bool;
  is_super_admin : bool;
  is_user_itself : Z -> bool;
  is_coorganizer : val -> bool;
  int_of_str : string -> option Z
}.

Definition is_logged_in (rq : Request) : bool :=
  match caller rq with
  | Anonymous => false
  | Authenticated _ _ => true
  end.

(** [int(v)] *)
Definition py_int (rq : Request) (v : val) : result Z :=
  match v with
  | VInt n => Ok n
  | VStr s =>
      match int_of_str rq s with
      | Some n => Ok n
      | None => Raise ValueError
      end
  | VNone => Raise TypeError
  end.

(** Modelled from the spec: [safe_query(model, column_name, value,
    parameter_name)] of [app.api.helpers.db],
    "fetch_by_id_or_alt_key(entity_type, key_name, value) -> entity |
    NotFound", the failure "surfaced to caller with the offending
    parameter name". *)
Definition safe_query (db : DB) (m : Model.t) (c : Column) (v : val)
  (parameter_name : string) : result Row :=
  match fetch db m c v with
  | Some r => Ok r
  | None =>
      Raise (ObjectNotFound parameter_name "{}: {} not found"
               [VStr (Model.class_name m); v])
  end.

(** [safe_query_kwargs(model, kwargs, parameter_name, column_name)] *)
Definition safe_query_kwargs (db : DB) (m : Model.t)
  (kwargs : gmap string val) (parameter_name : string) (c : Column)
  : result Row :=
  v ← dict_index kwargs parameter_name;
  safe_query db m c v parameter_name.

(** The same helper on [User], whose rows come from [users]. *)
Definition safe_query_user (db : DB) (v : val) (parameter_name : string)
  : result User.t :=
  match users db v with
  | Some u => Ok u
  | None =>
      Raise (ObjectNotFound parameter_name "{}: {} not found" [VStr "User"; v])
  end.

(** ** Lifecycle validator *)

Definition validate_event (user : User.t) (data : Data.t) : result unit :=
  if negb (User.can_create_event user) then
    Raise (ForbiddenError "" "Please verify your Email")
  else if str_eqb (get (Data.state data)) (Some "published")
          && negb (User.can_publish_event user) then
    Raise (ForbiddenError "" "Only verified accounts can publish events")
  else if negb (str_truthy (get (Data.name data)))
          && str_eqb (get (Data.state data)) (Some "published") then
    Raise (ConflictError "/data/attributes/name"
                         "Event Name is required to publish the event")
  else Ok tt.

(** Lines 81-86 of [validate_date]: a date whose key is not in the payload
    is assigned from the stored event. *)
Definition fill_dates (event : option Event.t) (data : Data.t) : Data.t :=
  match event with
  | Some ev =>
      let data :=
        if contains (Data.starts_at data) then data
        else Data.set_starts_at (store (Event.starts_at ev)) data in
      if contains (Data.ends_at data) then data
      else Data.set_ends_at (store (Event.ends_at ev)) data
  | None => data
  end.

Definition date_error : error :=
  UnprocessableEntityError "/data/attributes/date"
                           "enter required fields starts-at/ends-at".
Definition ends_at_error : error :=
  UnprocessableEntityError "/data/attributes/ends-at"
                           "ends-at should be after starts-at".
Definition starts_at_error : error :=
  UnprocessableEntityError "/data/attributes/starts-at"
                           "starts-at should be after current date-time".

(** [event and event.deleted_at and not data.get('deleted_at')] *)
Definition is_restore (event : option Event.t) (data : Data.t) : bool :=
  match event with
  | Some ev =>
      dt_truthy (Event.deleted_at ev)
      && negb (dt_truthy (get (Data.deleted_at data)))
  | None => false
  end.

(** [event and not event.deleted_at and data.get('deleted_at')] *)
Definition is_soft_delete (event : option Event.t) (data : Data.t) : bool :=
  match event with
  | Some ev =>
      negb (dt_truthy (Event.deleted_at ev))
      && dt_truthy (get (Data.deleted_at data))
  | None => false
  end.

(** [validate_date(event, data)] evaluated at the instant [now]
    ([datetime.now()]); the returned payload is [data] after the
    assignments made in place.  The last comparison is made in the source
    on [datetime.timestamp], a float of seconds: on instants before the
    year 2242 two distinct microseconds have distinct timestamps, in the
    same order, so that it is the comparison of the instants. *)
Definition validate_date (now : Z) (event : option Event.t) (data : Data.t)
  : result Data.t :=
  let data := fill_dates event data in
  match get (Data.starts_at data), get (Data.ends_at data) with
  | Some s, Some e =>
      if s >=? e then Raise ends_at_error
      else if s <=? now then
        if is_restore event data then Ok (Data.set_state (Val "draft") data)
        else if is_soft_delete event data then Ok data
        else Raise starts_at_error
      else Ok data
  | _, _ => Raise date_error
  end.

(** The dates [validate_date] compares: [data.get('starts_at')] and
    [data.get('ends_at')] after the fallback to the stored event. *)
Definition effective_starts_at (event : option Event.t) (data : Data.t)
  : option Z := get (Data.starts_at (fill_dates event data)).
Definition effective_ends_at (event : option Event.t) (data : Data.t)
  : option Z := get (Data.ends_at (fill_dates event data)).

(** [EventList.before_post]: [user] is
    [User.query.filter_by(id=kwargs['user_id']).first()]. *)
Definition before_post (now : Z) (db : DB) (kwargs : gmap string val)
  (data : Data.t) : result Data.t :=
  uid ← dict_index kwargs "user_id";
  match users db uid with
  | None => Raise (AttributeError "can_create_event")
  | Some user =>
      validate_event user data;;
      match Data.state data with
      | Absent => Raise (KeyError "state")
      | st =>
          if negb (str_eqb (get st) (Some "draft"))
          then validate_date now None data
          else Ok data
      end
  end.

(** ** Side-effect dispatcher *)

(** The background tasks of [helpers.tasks] with the arguments of their
    [delay] call; [event_id] stands for [str(event.id)]. *)
Inductive Task : Type :=
| export_xcal_task (event_id : Z) (temp : bool)
| export_ical_task (event_id : Z) (temp : bool)
| export_pentabarf_task (event_id : Z) (temp : bool)
| resize_event_images_task (event_id : Z) (original_image_url : string).

(** The objects handed to [save_to_db]. *)
Inductive Saved : Type :=
| SavedUsersEventsRoles (user : User.t) (event : Event.t) (role : RoleName)
| SavedRoleInvite (email role_name : string) (event : Event.t)
    (role : RoleName) (status : string)
| SavedEvent (event : Event.t).

(** What the module changes outside its arguments: the task queue (each
    submitted task with the handle [delay] returned for it, oldest
    first), the export-job records, the saved objects, and the events
    whose attendee custom forms were created. *)
Record World : Type := mkWorld {
  queue : list (nat * Task);
  export_jobs : list (nat * Z);
  session : list Saved;
  custom_forms : list Z
}.

(** [task.delay(...)]: the task is queued and a handle returned; the
    handle of a task is its position in the queue, so two submissions
    never share one. *)
Definition delay (t : Task) (w : World) : nat * World :=
  let h := length (queue w) in
  (h, mkWorld (queue w ++ [(h, t)]) (export_jobs w) (session w)
              (custom_forms w)).

(** Modelled from the spec: [create_export_job(task_id, event_id)] of
    [app.api.helpers.export_helpers], which is to "record each returned
    task handle with its event id". *)
Definition create_export_job (task_id : nat) (event_id : Z) (w : World)
  : World :=
  mkWorld (queue w) (export_jobs w ++ [(task_id, event_id)]) (session w)
          (custom_forms w).

Definition save_to_db (x : Saved) (w : World) : World :=
  mkWorld (queue w) (export_jobs w) (session w ++ [x]) (custom_forms w).

(** Modelled from the spec: [create_custom_forms_for_attendees(event)] of
    [app.api.helpers.events], of which the spec says nothing but that the
    dispatcher's jobs are the export and resize jobs: it records the
    event and submits no task. *)
Definition create_custom_forms_for_attendees (event : Event.t) (w : World)
  : World :=
  mkWorld (queue w) (export_jobs w) (session w)
          (custom_forms w ++ [Event.id event]).

Definition start_export_tasks (event : Event.t) (w : World) : World :=
  let event_id := Event.id event in
  let '(task_xcal, w) := delay (export_xcal_task event_id false) w in
  let w := create_export_job task_xcal event_id w in
  let '(task_ical, w) := delay (export_ical_task event_id false) w in
  let w := create_export_job task_ical event_id w in
  let '(task_pentabarf, w) := delay (export_pentabarf_task event_id false) w in
  create_export_job task_pentabarf event_id w.

Definition start_image_resizing_tasks (event : Event.t)
  (original_image_url : string) (w : World) : World :=
  let event_id := Event.id event in
  snd (delay (resize_event_images_task event_id original_image_url) w).

Definition clear_export_urls (event : Event.t) (w : World)
  : Event.t * World :=
  let event := Event.clear_urls event in
  (event, save_to_db (SavedEvent event) w).

(** [event.state == 'published' and event.schedule_published_on] *)
Definition published_and_scheduled (event : Event.t) : bool :=
  str_eqb (Event.state event) (Some "published")
  && dt_truthy (Event.schedule_published_on event).

(** [EventList.after_create_object]; the event is returned with the
    world because [clear_export_urls], which this method never calls,
    is the one function that assigns to it. *)
Definition after_create_object (db : DB) (event : Event.t) (data : Data.t)
  (view_kwargs : gmap string val) (w : World) : result (Event.t * World) :=
  uid ← dict_index view_kwargs "user_id";
  let user := users db uid in
  let role := owner_role db in
  match user with
  | None => Raise (AttributeError "email")
  | Some user =>
      let w := save_to_db (SavedUsersEventsRoles user event OWNER) w in
      match role with
      | None => Raise (AttributeError "title_name")
      | Some title_name =>
          let w := save_to_db (SavedRoleInvite (User.email user) title_name
                                 event OWNER "accepted") w in
          let w := create_custom_forms_for_attendees event w in
          let w := if published_and_scheduled event
                   then start_export_tasks event w else w in
          let w := if str_truthy (get (Data.original_image_url data))
                   then start_image_resizing_tasks event
                          (default "" (get (Data.original_image_url data))) w
                   else w in
          Ok (event, w)
      end
  end.

(** [EventDetail.after_update_object] *)
Definition after_update_object (event : Event.t) (w : World)
  : Event.t * World :=
  if published_and_scheduled event then (event, start_export_tasks event w)
  else clear_export_urls event w.

(** Lines 683-691 of [EventDetail.before_update_object]: the date check,
    run when a date differs from the stored one, when a draft is
    published or when the deletion mark is cleared. *)
Definition date_step (now : Z) (event : Event.t) (data : Data.t)
  : result Data.t :=
  let is_date_updated :=
    negb (dt_eqb (get (Data.starts_at data)) (Event.starts_at event))
    || negb (dt_eqb (get (Data.ends_at data)) (Event.ends_at event)) in
  let is_draft_published :=
    str_eqb (Event.state event) (Some "draft")
    && str_eqb (get (Data.state data)) (Some "published") in
  let is_event_restored :=
    dt_truthy (Event.deleted_at event)
    && negb (dt_truthy (get (Data.deleted_at data))) in
  if is_date_updated || is_draft_published || is_event_restored
  then validate_date now (Some event) data
  else Ok data.

(** Lines 693-698: the guard on events with orders and the assignment of
    [event.deleted_at]. *)
Definition deletion_step (rq : Request) (event : Event.t) (data : Data.t)
  : result Event.t :=
  if is_admin rq
     && negb (dt_eqb (get (Data.deleted_at data)) (Event.deleted_at event))
  then
    if negb (Nat.eqb (Event.orders event) 0) && negb (is_super_admin rq)
    then Raise (ForbiddenError ""
                  "Event associated with orders cannot be deleted")
    else Ok (Event.set_deleted_at (get (Data.deleted_at data)) event)
  else Ok event.

(** [EventDetail.before_update_object]: the date check, the guard on
    events with orders, the resize job.  Returns the event and the
    payload after their assignments. *)
Definition before_update_object (now : Z) (rq : Request) (event : Event.t)
  (data : Data.t) (w : World) : result (Event.t * Data.t * World) :=
  data ← date_step now event data;
  event ← deletion_step rq event data;
  let w :=
    if str_truthy (get (Data.original_image_url data))
       && negb (str_eqb (get (Data.original_image_url data))
                        (Event.original_image_url event))
    then start_image_resizing_tasks event
           (default "" (get (Data.original_image_url data))) w
    else w in
  Ok (event, data, w).

(** [EventDetail.after_get_object]: [event] is the fetched row, [None]
    when there is none. *)
Definition after_get_object (rq : Request) (event : option Event.t)
  : result unit :=
  match event with
  | Some ev =>
      if str_eqb (Event.state ev) (Some "draft") then
        if negb (is_logged_in rq)
           || negb (is_coorganizer rq (VInt (Event.id ev)))
        then Raise (ObjectNotFound "{id}" "Event: not found" [])
        else Ok tt
      else Ok tt
  | None => Ok tt
  end.

(** ** Owner resolver *)

(** The two tests the branches of [get_id] use, on a route parameter and
    on a fetched [event_id]: truthiness, and [is not None]. *)
Inductive Test : Type :=
| Truthy
| NotNone.

Definition test (t : Test) (v : val) : bool :=
  match t with
  | Truthy => truthy v
  | NotNone => is_not_none v
  end.

(** One [if] block of [get_id]: the key its guard reads and the guard's
    test; the model, the column and the key of the value the row is
    fetched by; the parameter and the format string of the
    [ObjectNotFound] raised when there is no such row, and whether the
    class name is passed to [format] (it is by [safe_query_kwargs]); the
    test on the row's [event_id]; and whether the block has the [else]
    that assigns [None]. *)
Record Branch : Type := mkBranch {
  key : string;
  guard : Test;
  model : Model.t;
  column : Column;
  arg : string;
  parameter : string;
  detail : string;
  by_helper : bool;
  owned : Test;
  has_else : bool
}.

(** A block that calls [safe_query_kwargs(m, view_kwargs, k, c)]. *)
Definition helper_branch (k : string) (g : Test) (m : Model.t) (c : Column)
  (has_else : bool) : Branch :=
  mkBranch k g m c k k "{}: {} not found" true NotNone has_else.

(** A block that queries [m] by [id=view_kwargs[a]] itself. *)
Definition direct_branch (k : string) (g : Test) (m : Model.t) (a : string)
  (detail : string) (o : Test) : Branch :=
  mkBranch k g m col_id a a detail false o true.

(** The blocks of [get_id] after the first, in the order of the source. *)
Definition branches : list Branch :=
  [ helper_branch "sponsor_id" NotNone Model.Sponsor col_id true;
    helper_branch "user_favourite_event_id" NotNone Model.UserFavouriteEvent
                  col_id true;
    helper_branch "copyright_id" NotNone Model.EventCopyright col_id true;
    helper_branch "track_id" NotNone Model.Track col_id true;
    helper_branch "session_type_id" NotNone Model.SessionType col_id true;
    helper_branch "faq_type_id" NotNone Model.FaqType col_id true;
    helper_branch "event_invoice_id" NotNone Model.EventInvoice col_id true;
    helper_branch "event_invoice_identifier" NotNone Model.EventInvoice
                  col_identifier true;
    helper_branch "discount_code_id" NotNone Model.DiscountCode col_id true;
    helper_branch "session_id" NotNone Model.Session col_id true;
    helper_branch "social_link_id" NotNone Model.SocialLink col_id true;
    helper_branch "tax_id" NotNone Model.Tax col_id true;
    helper_branch "stripe_authorization_id" NotNone Model.StripeAuthorization
                  col_id true;
    direct_branch "user_id" NotNone Model.DiscountCode "discount_code_id"
                  "DiscountCode: {} not found" NotNone;
    helper_branch "speakers_call_id" NotNone Model.SpeakersCall col_id true;
    helper_branch "ticket_id" NotNone Model.Ticket col_id true;
    helper_branch "ticket_tag_id" NotNone Model.TicketTag col_id true;
    helper_branch "role_invite_id" NotNone Model.RoleInvite col_id true;
    helper_branch "users_events_role_id" NotNone Model.UsersEventsRoles
                  col_id false;
    helper_branch "access_code_id" NotNone Model.AccessCode col_id true;
    direct_branch "speaker_id" Truthy Model.Speaker "speaker_id"
                  "Speaker: {} not found" Truthy;
    direct_branch "email_notification_id" Truthy Model.EmailNotification
                  "email_notification_id"
                  "Email Notification: {} not found" Truthy;
    direct_branch "microlocation_id" Truthy Model.Microlocation
                  "microlocation_id" "Microlocation: {} not found" Truthy;
    helper_branch "attendee_id" Truthy Model.TicketHolder col_id true;
    helper_branch "custom_form_id" NotNone Model.CustomForms col_id true;
    helper_branch "faq_id" NotNone Model.Faq col_id true;
    helper_branch "order_identifier" NotNone Model.Order col_identifier true;
    helper_branch "feedback_id" NotNone Model.Feedback col_id true ].

(** The row a block fetches, or the exception it raises. *)
Definition fetch_row (db : DB) (b : Branch) (view_kwargs : gmap string val)
  : result Row :=
  v ← dict_index view_kwargs (arg b);
  match fetch db (model b) (column b) v with
  | Some r => Ok r
  | None =>
      Raise (ObjectNotFound (parameter b) (detail b)
               (if by_helper b then [VStr (Model.class_name (model b)); v]
                else [v]))
  end.

(** One block: guard, fetch, and the assignment to [view_kwargs['id']]. *)
Definition run_branch (db : DB) (b : Branch) (view_kwargs : gmap string val)
  : result (gmap string val) :=
  if test (guard b) (dict_get view_kwargs (key b)) then
    r ← fetch_row db b view_kwargs;
    if test (owned b) (of_column (row_event_id r))
    then Ok (<["id" := of_column (row_event_id r)]> view_kwargs)
    else if has_else b then Ok (<["id" := VNone]> view_kwargs)
    else Ok view_kwargs
  else Ok view_kwargs.

(** The first block: the event addressed by its [identifier]. *)
Definition run_identifier (db : DB) (view_kwargs : gmap string val)
  : result (gmap string val) :=
  if truthy (dict_get view_kwargs "identifier") then
    event ← safe_query_kwargs db Model.Event view_kwargs "identifier"
                              col_identifier;
    Ok (<["id" := VInt (row_id event)]> view_kwargs)
  else Ok view_kwargs.

Fixpoint run_branches (db : DB) (bs : list Branch)
  (view_kwargs : gmap string val) : result (gmap string val) :=
  match bs with
  | [] => Ok view_kwargs
  | b :: bs =>
      view_kwargs ← run_branch db b view_kwargs;
      run_branches db bs view_kwargs
  end.

(** [get_id(view_kwargs)]: the returned dictionary is [view_kwargs] itself
    after the assignments to its ['id']. *)
Definition get_id (db : DB) (view_kwargs : gmap string val)
  : result (gmap string val) :=
  view_kwargs ← run_identifier db view_kwargs;
  run_branches db branches view_kwargs.

(** ** Visibility filter builder *)

(** A query over [Event] is the predicate that selects its rows. *)
Definition Query : Type := Event.t -> bool.

(** [self.session.query(Event)] *)
Definition all_events : Query := fun _ => true.

(** [q.filter_by(state='published')] *)
Definition filter_published (q : Query) : Query :=
  fun e => q e && str_eqb (Event.state e) (Some "published").

(** [q1.union(q2)] *)
Definition union (q1 q2 : Query) : Query :=
  fun e => q1 e || q2 e.

(** The condition a scoping puts on [Role.name]. *)
Inductive RoleFilter : Type :=
| Is (r : RoleName)
| IsNot (r : RoleName)
| OneOf (rs : list RoleName).

Definition role_matches (f : RoleFilter) (r : RoleName) : bool :=
  match f with
  | Is r' => bool_decide (r = r')
  | IsNot r' => negb (bool_decide (r = r'))
  | OneOf rs => bool_decide (r ∈ rs)
  end.

(** Whether some role assignment of [db] gives user [uid] on event [e] a
    role that satisfies [f]. *)
Definition holds_role (db : DB) (uid : Z) (f : RoleFilter) (e : Event.t)
  : bool :=
  existsb (fun a =>
             (UsersEventsRoles.event_id a =? Event.id e)
             && (UsersEventsRoles.user_id a =? uid)
             && role_matches f (UsersEventsRoles.role a))
          (roles db).

(** [q.join(Event.roles).filter_by(user_id=uid)
      .join(UsersEventsRoles.role).filter(f)]: the rows of [q] that have
    such a role assignment. *)
Definition join_roles (db : DB) (uid : Z) (f : RoleFilter) (q : Query)
  : Query :=
  fun e => q e && holds_role db uid f e.

(** [column == v] in a filter, for a nullable integer column. *)
Definition column_eq (c : option Z) (v : val) : bool :=
  match c, v with
  | Some n, VInt m => n =? m
  | _, _ => false
  end.

(** Lines 130-133: every event for a staff caller, the published events
    for any other. *)
Definition default_query (rq : Request) : Query :=
  let query_ := all_events in
  match caller rq with
  | Anonymous => filter_published query_
  | Authenticated _ is_staff =>
      if negb is_staff then filter_published query_ else query_
  end.

(** Lines 134-151: for a logged-in caller, the union with the events on
    which the caller is co-organizer, organizer or owner. *)
Definition base_query (rq : Request) (db : DB) : Query :=
  let query_ := default_query rq in
  match caller rq with
  | Authenticated uid _ =>
      let query2 :=
        join_roles db uid (OneOf [COORGANIZER; ORGANIZER; OWNER]) all_events in
      union query_ query2
  | Anonymous => query_
  end.

(** One of the nine blocks of lines 153-272: [k] is the route parameter,
    [parameter_name] the parameter [safe_query] names when the user does
    not exist, [f] the filter on the role name. *)
Definition role_scope (rq : Request) (db : DB) (k parameter_name : string)
  (f : RoleFilter) (view_kwargs : gmap string val) (query_ : Query)
  : result Query :=
  if truthy (dict_get view_kwargs k) && method_has_GET rq then
    v ← dict_index view_kwargs k;
    n ← py_int rq v;
    if negb (is_user_itself rq n) then
      Raise (ForbiddenError "" "Access Forbidden")
    else
      user ← safe_query_user db v parameter_name;
      Ok (join_roles db (User.id user) f query_)
  else Ok query_.

(** The nine scopings in the order of the source. *)
Definition role_scopes : list (string * string * RoleFilter) :=
  [ ("user_id", "user_id", IsNot ATTENDEE);
    ("user_owner_id", "user_owner_id", Is OWNER);
    ("user_organizer_id", "user_organizer_id", Is ORGANIZER);
    ("user_coorganizer_id", "user_coorganizer_id", Is COORGANIZER);
    ("user_track_organizer_id", "user_organizer_id", Is TRACK_ORGANIZER);
    ("user_registrar_id", "user_registrar_id", Is REGISTRAR);
    ("user_moderator_id", "user_moderator_id", Is MODERATOR);
    ("user_marketer_id", "user_marketer_id", Is MARKETER);
    ("user_sales_admin_id", "user_sales_admin_id", Is SALES_ADMIN) ].

Fixpoint run_role_scopes (rq : Request) (db : DB)
  (ss : list (string * string * RoleFilter))
  (view_kwargs : gmap string val) (query_ : Query) : result Query :=
  match ss with
  | [] => Ok query_
  | (k, p, f) :: ss =>
      query_ ← role_scope rq db k p f view_kwargs query_;
      run_role_scopes rq db ss view_kwargs query_
  end.

(** One of the three blocks of lines 274-287: a new query on the events
    whose classification column equals the route parameter. *)
Definition class_scope (rq : Request) (k : string)
  (col : Event.t -> option Z) (view_kwargs : gmap string val)
  (query_ : Query) : result Query :=
  if truthy (dict_get view_kwargs k) && method_has_GET rq then
    v ← dict_index view_kwargs k;
    Ok (fun e => all_events e && column_eq (col e) v)
  else Ok query_.

(** Lines 289-295. *)
Definition discount_scope (rq : Request) (db : DB)
  (view_kwargs : gmap string val) (query_ : Query) : result Query :=
  if truthy (dict_get view_kwargs "discount_code_id") && method_has_GET rq
  then
    view_kwargs ← get_id db view_kwargs;
    event_id ← dict_index view_kwargs "id";
    if negb (is_coorganizer rq event_id) then
      Raise (ForbiddenError "" "Coorganizer access is required")
    else
      v ← dict_index view_kwargs "discount_code_id";
      Ok (fun e => all_events e && column_eq (Event.discount_code_id e) v)
  else Ok query_.

(** The route parameters that replace the query (lines 274-295), and all
    the route parameters [EventList.query] reads. *)
Definition replacement_keys : list string :=
  [ "event_type_id"; "event_topic_id"; "event_sub_topic_id";
    "discount_code_id" ].
Definition scoping_keys : list string :=
  (map (fun s => fst (fst s)) role_scopes ++ replacement_keys)%list.

(** [EventList.query(view_kwargs)] *)
Definition EventList_query (rq : Request) (db : DB)
  (view_kwargs : gmap string val) : result Query :=
  let query_ := base_query rq db in
  query_ ← run_role_scopes rq db role_scopes view_kwargs query_;
  query_ ← class_scope rq "event_type_id" Event.event_type_id
             view_kwargs query_;
  query_ ← class_scope rq "event_topic_id" Event.event_topic_id
             view_kwargs query_;
  query_ ← class_scope rq "event_sub_topic_id" Event.event_sub_topic_id
             view_kwargs query_;
  discount_scope rq db view_kwargs query_.

(** User [uid] has on event [e] a role assignment whose role satisfies
    [P]. *)
Definition has_role (db : DB) (uid : Z) (P : RoleName -> Prop)
  (e : Event.t) : Prop :=
  exists a, a ∈ roles db
            /\ UsersEventsRoles.user_id a = uid
            /\ UsersEventsRoles.event_id a = Event.id e
            /\ P (UsersEventsRoles.role a).

(** What a scoping's filter asks of a role name. *)
Definition satisfies (f : RoleFilter) (r : RoleName) : Prop :=
  match f with
  | Is r' => r = r'
  | IsNot r' => r <> r'
  | OneOf rs => r ∈ rs
  end.

(** User [uid] is owner, organizer or co-organizer of [e]. *)
Definition manages (db : DB) (uid : Z) (e : Event.t) : Prop :=
  has_role db uid (fun r => r = OWNER \/ r = ORGANIZER \/ r = COORGANIZER) e.

(** ** Schema selection and the remaining hooks *)

(** The two schemas a resource answers with. *)
Inductive Schema : Type :=
| EventSchema
| EventSchemaPublic.

(** [EventList.before_get]: the schema assigned to [self.schema]. *)
Definition EventList_before_get (rq : Request) (kwargs : gmap string val)
  : Schema :=
  if is_logged_in rq && (is_admin rq || truthy (dict_get kwargs "user_id"))
  then EventSchema
  else EventSchemaPublic.

(** [EventDetail.before_get]: [kwargs] after [get_id], and the schema
    assigned. *)
Definition EventDetail_before_get (rq : Request) (db : DB)
  (kwargs : gmap string val) : result (gmap string val * Schema) :=
  kwargs ← get_id db kwargs;
  if is_logged_in rq then
    event_id ← dict_index kwargs "id";
    Ok (kwargs, if is_coorganizer rq event_id then EventSchema
                else EventSchemaPublic)
  else Ok (kwargs, EventSchemaPublic).

(** [EventDetail.before_get_object]: [get_id], then the order addressed by
    [order_identifier] is fetched once more. *)
Definition EventDetail_before_get_object (db : DB)
  (view_kwargs : gmap string val) : result (gmap string val) :=
  view_kwargs ← get_id db view_kwargs;
  if is_not_none (dict_get view_kwargs "order_identifier") then
    order ← safe_query_kwargs db Model.Order view_kwargs "order_identifier"
                              col_identifier;
    if is_not_none (of_column (row_event_id order))
    then Ok (<["id" := of_column (row_event_id order)]> view_kwargs)
    else Ok (<["id" := VNone]> view_kwargs)
  else Ok view_kwargs.

(** [EventRelationship.before_get_object] *)
Definition EventRelationship_before_get_object (db : DB)
  (view_kwargs : gmap string val) : result (gmap string val) :=
  if truthy (dict_get view_kwargs "identifier") then
    event ← safe_query_kwargs db Model.Event view_kwargs "identifier"
                              col_identifier;
    Ok (<["id" := VInt (row_id event)]> view_kwargs)
  else Ok view_kwargs.

(** ** Upcoming events *)

(** The columns of [Ticket] and of [SocialLink] the upcoming-events query
    reads. *)
Module Ticket.
Record t : Type := mk {
  deleted_at : option Z;
  is_hidden : option bool;
  sales_ends_at : option Z
}.
End Ticket.

Module SocialLink.
Record t : Type := mk {
  name : option string
}.
End SocialLink.

(** A row of [Event] with the further columns and the two relationships
    the upcoming-events query reads. *)
Module Listed.
Record t : Type := mk {
  event : Event.t;
  privacy : option string;
  is_promoted : option bool;
  logo_url : option string;
  tickets : list Ticket.t;
  social_link : list SocialLink.t
}.
End Listed.

(** [column > v] in a filter: not satisfied by a null column. *)
Definition column_gt (c : option Z) (v : Z) : bool :=
  match c with
  | Some n => v <? n
  | None => false
  end.

(** [column != None] *)
Definition not_null {A} (c : option A) : bool :=
  match c with
  | Some _ => true
  | None => false
  end.

(** The condition inside [Event.tickets.any(...)]. *)
Definition ticket_on_sale (current_time : Z) (t : Ticket.t) : bool :=
  negb (not_null (Ticket.deleted_at t))
  && bool_decide (Ticket.is_hidden t = Some false)
  && column_gt (Ticket.sales_ends_at t) current_time.

(** The second argument of the [or_]: the event is complete. *)
Definition complete (current_time : Z) (r : Listed.t) : bool :=
  not_null (Event.original_image_url (Listed.event r))
  && not_null (Listed.logo_url r)
  && not_null (Event.event_type_id (Listed.event r))
  && not_null (Event.event_topic_id (Listed.event r))
  && not_null (Event.event_sub_topic_id (Listed.event r))
  && existsb (ticket_on_sale current_time) (Listed.tickets r)
  && existsb (fun l => str_eqb (SocialLink.name l) (Some "twitter"))
             (Listed.social_link r).

(** The filter of [UpcomingEventList.query] at [current_time]. *)
Definition upcoming (current_time : Z) (r : Listed.t) : bool :=
  column_gt (Event.starts_at (Listed.event r)) current_time
  && column_gt (Event.ends_at (Listed.event r)) current_time
  && str_eqb (Event.state (Listed.event r)) (Some "published")
  && str_eqb (Listed.privacy r) (Some "public")
  && (bool_decide (Listed.is_promoted r = Some true)
      || complete current_time r).

(** The order of [order_by(Event.starts_at)]; every row that passes the
    filter has a [starts_at], so that the place of a null is immaterial. *)
Definition starts_no_later (a b : Listed.t) : Prop :=
  default 0 (Event.starts_at (Listed.event a))
  <= default 0 (Event.starts_at (Listed.event b)).

Global Instance starts_no_later_dec a b : Decision (starts_no_later a b).
Proof. unfold starts_no_later. apply _. Defined.

(** [UpcomingEventList.query] evaluated at [current_time] on the rows of
    [Event]: the rows that pass the filter, by ascending [starts_at]. *)
Definition UpcomingEventList_query (current_time : Z)
  (events : list Listed.t) : list Listed.t :=
  merge_sort starts_no_later (List.filter (upcoming current_time) events).

(** The event a task exports, for the three export tasks. *)
Definition exported_event (t : Task) : option Z :=
  match t with
  | export_xcal_task event_id _ => Some event_id
  | export_ical_task event_id _ => Some event_id
  | export_pentabarf_task event_id _ => Some event_id
  | resize_event_images_task _ _ => None
  end.

(** Every export-job record pairs the handle of a queued export task with
    the event that task exports. *)
Definition tracked (w : World) : Prop :=
  forall h event_id,
    (h, event_id) ∈ export_jobs w ->
    exists t, (h, t) ∈ queue w /\ exported_event t = Some event_id.

(** ** Sample requests and rows

    The concrete inputs on which the properties below are exercised. *)
Module Sample.

Definition no_data : Data.t :=
  Data.mk Absent Absent Absent Absent Absent Absent.

(** An event with the given id, state, dates, deletion mark and number of
    orders, every other column null. *)
Definition event (id : Z) (state : string) (starts_at ends_at : Z)
  (deleted_at : option Z) (orders : nat) : Event.t :=
  Event.mk id (Some "FOSSASIA Summit") (Some state) (Some starts_at)
           (Some ends_at) deleted_at None None None None None None None None
           None orders.

(** Event 5: published, with its schedule published at 150. *)
Definition scheduled : Event.t :=
  Event.mk 5 (Some "FOSSASIA Summit") (Some "published") (Some 200)
           (Some 300) None (Some 150) None None None None None None None
           None 0.

(** Event 10, a draft of event type 3. *)
Definition typed_draft : Event.t :=
  Event.mk 10 (Some "FOSSASIA Summit") (Some "draft") (Some 200) (Some 300)
           None None None None None None (Some 3) None None None 0.

Definition alice : User.t := User.mk 1 "alice@example.org" true true.

Definition no_rows : Model.t -> Column -> val -> option Row :=
  fun _ _ _ => None.

(** User 1 exists and is registrar of event 10, owner of event 11. *)
Definition db : DB :=
  mkDB no_rows
       (fun v => if bool_decide (v = VInt 1) then Some alice else None)
       (Some "Owner")
       [ UsersEventsRoles.mk 1 10 REGISTRAR; UsersEventsRoles.mk 1 11 OWNER ].

(** Rows without an event: role assignment 4 and access code 4.  Ticket 1
    belongs to event 8. *)
Definition orphans : DB :=
  mkDB (fun m c v =>
          match m, c, v with
          | Model.UsersEventsRoles, col_id, VInt 4 => Some (mkRow 4 None)
          | Model.AccessCode, col_id, VInt 4 => Some (mkRow 4 None)
          | Model.Ticket, col_id, VInt 1 => Some (mkRow 1 (Some 8))
          | _, _, _ => None
          end)
       (fun _ => None) None [].

(** An anonymous GET request, every permission refused. *)
Definition anonymous_get : Request :=
  mkRequest Anonymous true false false (fun _ => false) (fun _ => false)
            (fun _ => None).

(** A GET request of user 1, who is not staff and has no permission but
    the one on their own data. *)
Definition alice_get : Request :=
  mkRequest (Authenticated 1 false) true false false
            (fun n => n =? 1) (fun _ => false) (fun _ => None).

(** A PATCH request of an admin, and of a super admin. *)
Definition admin_patch : Request :=
  mkRequest (Authenticated 2 true) false true false (fun _ => true)
            (fun _ => true) (fun _ => None).

Definition empty_world : World := mkWorld [] [] [] [].

End Sample.

(** The instants, in microseconds from the epoch, less than 2^33 seconds
    away from it, which is until the year 2242.  There the floats
    [datetime.timestamp] returns are less than a microsecond apart, so
    that two such instants compare as their timestamps do; further away,
    distinct instants may share a timestamp. *)
Definition representable (t : Z) : Prop :=
  Z.abs t < 2 ^ 33 * 1000000.

(** Further rows and requests for the properties beyond the claims. *)
Module Fixture.

(** Discount code 6 belongs to event 11. *)
Definition codes : DB :=
  mkDB (fun m c v =>
          match m, c, v with
          | Model.DiscountCode, col_id, VInt 6 => Some (mkRow 6 (Some 11))
          | _, _, _ => None
          end)
       (fun _ => None) None [].

(** A GET request of user 1, co-organizer of event 11 and of no other. *)
Definition organizer_get : Request :=
  mkRequest (Authenticated 1 false) true false false
            (fun n => n =? 1) (fun v => bool_decide (v = VInt 11))
            (fun _ => None).

(** A public, published event with the given id, start (it ends 100
    later), promotion flag, tickets and social links, and with image,
    logo and classification when [complete]. *)
Definition listed (id : Z) (starts_at : Z) (is_promoted : option bool)
  (complete : bool) (tickets : list Ticket.t)
  (social_link : list SocialLink.t) : Listed.t :=
  Listed.mk
    (Event.mk id (Some "FOSSASIA Summit") (Some "published") (Some starts_at)
              (Some (starts_at + 100)) None None
              (if complete then Some "https://example.org/cover.png"
               else None)
              None None None
              (if complete then Some 3 else None)
              (if complete then Some 4 else None)
              (if complete then Some 5 else None) None 0)
    (Some "public") is_promoted
    (if complete then Some "https://example.org/logo.png" else None)
    tickets social_link.

Definition open_ticket : Ticket.t := Ticket.mk None (Some false) (Some 500).
Definition twitter : SocialLink.t := SocialLink.mk (Some "twitter").

End Fixture.

(** * Properties *)

(** ** The date-window check *)

Section DateWindow.

Variables (now : Z) (event : option Event.t) (data : Data.t).

Lemma fill_dates_deleted_at :
  Data.deleted_at (fill_dates event data) = Data.deleted_at data.
Proof.
  unfold fill_dates. destruct event as [ev|]; [|reflexivity].
  destruct (contains (Data.starts_at data)),
           (contains (Data.ends_at _)); reflexivity.
Qed.

Lemma is_restore_fill :
  is_restore event (fill_dates event data) = is_restore event data.
Proof. unfold is_restore. now rewrite fill_dates_deleted_at. Qed.

Lemma is_soft_delete_fill :
  is_soft_delete event (fill_dates event data) = is_soft_delete event data.
Proof. unfold is_soft_delete. now rewrite fill_dates_deleted_at. Qed.

(** The two exemptions exclude each other: the stored event either has a
    deletion mark or has none. *)
Lemma restore_not_soft_delete :
  is_restore event data = true -> is_soft_delete event data = false.
Proof.
  unfold is_restore, is_soft_delete. destruct event as [ev|]; [|done].
  destruct (dt_truthy (Event.deleted_at ev)); simpl; [done|discriminate].
Qed.

(** [validate_date] unfolded on the dates it compares. *)
Lemma validate_date_dates s e :
  effective_starts_at event data = Some s ->
  effective_ends_at event data = Some e ->
  validate_date now event data =
    if s >=? e then Raise ends_at_error
    else if s <=? now then
      if is_restore event data
      then Ok (Data.set_state (Val "draft") (fill_dates event data))
      else if is_soft_delete event data then Ok (fill_dates event data)
      else Raise starts_at_error
    else Ok (fill_dates event data).
Proof.
  unfold effective_starts_at, effective_ends_at, validate_date.
  intros -> ->. now rewrite is_restore_fill, is_soft_delete_fill.
Qed.

(** Whatever payload [validate_date] accepts carries both dates, in
    order. *)
Lemma validate_date_accepts data' :
  validate_date now event data = Ok data' ->
  exists s e, get (Data.starts_at data') = Some s
              /\ get (Data.ends_at data') = Some e /\ s < e.
Proof.
  unfold validate_date.
  destruct (get (Data.starts_at (fill_dates event data))) as [s|] eqn:Hs;
    [|discriminate].
  destruct (get (Data.ends_at (fill_dates event data))) as [e|] eqn:He;
    [|discriminate].
  destruct (Z.geb_spec s e) as [|Hlt]; [discriminate|].
  intros H. exists s, e.
  destruct (s <=? now); [destruct (is_restore _ _);
    [|destruct (is_soft_delete _ _); [|discriminate]]|];
    injection H as <-; simpl; auto.
Qed.

Lemma validate_date_keeps_deleted_at data' :
  validate_date now event data = Ok data' ->
  Data.deleted_at data' = Data.deleted_at data.
Proof.
  unfold validate_date.
  destruct (get (Data.starts_at _)); [|discriminate].
  destruct (get (Data.ends_at _)); [|discriminate].
  destruct (_ >=? _); [discriminate|].
  intros H.
  destruct (_ <=? _); [destruct (is_restore _ _);
    [|destruct (is_soft_delete _ _); [|discriminate]]|];
    injection H as <-; simpl; apply fill_dates_deleted_at.
Qed.

End DateWindow.

(** C1, as the code has it.  In the date-window check, when the
    effective dates are present and in order and the effective
    [starts_at] is not strictly after the evaluation instant,
    [validate_date] raises the error tagged against starts-at, unless the
    stored event has no [deleted_at] and the payload sets one
    (soft-delete: the payload is accepted as it is, with the dates filled
    in), or the stored event has a [deleted_at] and the payload carries
    none, be it bound to [None] or left out (restore: the payload is
    accepted with its state set to 'draft').  And whatever the dates are,
    the starts-at error is never the outcome of a soft-delete or of such
    a restore. *)
Theorem validate_date_past_start (now : Z) (event : option Event.t)
  (data : Data.t) :
  (forall s e,
     effective_starts_at event data = Some s ->
     effective_ends_at event data = Some e ->
     s < e -> s <= now ->
     match event with
     | Some ev =>
         match Event.deleted_at ev, get (Data.deleted_at data) with
         | None, Some _ =>
             exists data',
               validate_date now event data = Ok data'
               /\ Data.state data' = Data.state data
               /\ Data.name data' = Data.name data
               /\ Data.deleted_at data' = Data.deleted_at data
               /\ Data.original_image_url data'
                  = Data.original_image_url data
               /\ get (Data.starts_at data') = Some s
               /\ get (Data.ends_at data') = Some e
         | Some _, None =>
             exists data',
               validate_date now event data = Ok data'
               /\ Data.state data' = Val "draft"
               /\ Data.name data' = Data.name data
               /\ Data.deleted_at data' = Data.deleted_at data
               /\ Data.original_image_url data'
                  = Data.original_image_url data
               /\ get (Data.starts_at data') = Some s
               /\ get (Data.ends_at data') = Some e
         | _, _ => validate_date now event data = Raise starts_at_error
         end
     | None => validate_date now event data = Raise starts_at_error
     end)
  /\ (forall ev,
        event = Some ev ->
        (Event.deleted_at ev = None /\ get (Data.deleted_at data) <> None)
        \/ (Event.deleted_at ev <> None /\ get (Data.deleted_at data) = None) ->
        forall detail,
          validate_date now event data
          <> Raise (UnprocessableEntityError "/data/attributes/starts-at"
                                             detail)).
Proof.
  assert (Hkeep : Data.name (fill_dates event data) = Data.name data
                  /\ Data.state (fill_dates event data) = Data.state data
                  /\ Data.original_image_url (fill_dates event data)
                     = Data.original_image_url data).
  { unfold fill_dates. destruct event as [ev|]; [|done].
    destruct (contains (Data.starts_at data)),
             (contains (Data.ends_at _)); done. }
  destruct Hkeep as (Hname & Hstate & Hurl).
  split.
  - intros s e Hs He Hlt Hpast.
    rewrite (validate_date_dates now event data s e Hs He).
    destruct (Z.geb_spec s e); [lia|].
    destruct (Z.leb_spec s now); [|lia].
    unfold is_restore, is_soft_delete.
    destruct event as [ev|]; [|reflexivity].
    pose proof (fill_dates_deleted_at (Some ev) data) as Hdel.
    unfold effective_starts_at in Hs. unfold effective_ends_at in He.
    destruct (Event.deleted_at ev), (get (Data.deleted_at data));
      try reflexivity; simpl;
      eexists; (split; [reflexivity|]); simpl; auto 10.
  - intros ev -> Hcase detail. unfold validate_date.
    rewrite is_restore_fill, is_soft_delete_fill.
    destruct (get (Data.starts_at _)); [|discriminate].
    destruct (get (Data.ends_at _)); [|discriminate].
    destruct (_ >=? _); [discriminate|].
    destruct (_ <=? _); [|discriminate].
    unfold is_restore, is_soft_delete.
    destruct Hcase as [[Hev Hd]|[Hev Hd]];
      destruct (Event.deleted_at ev), (get (Data.deleted_at data));
      simpl; congruence.
Qed.

(** C7. For every pair of effective dates, [validate_date] raises the
    unprocessable-entity error tagged against ends-at when [starts_at] is
    not strictly before [ends_at] (equal instants included), and raises
    no error tagged against ends-at when it is. *)
Theorem validate_date_order (now : Z) (event : option Event.t)
  (data : Data.t) (s e : Z) :
  effective_starts_at event data = Some s ->
  effective_ends_at event data = Some e ->
  (s >= e ->
   validate_date now event data
   = Raise (UnprocessableEntityError "/data/attributes/ends-at"
                                     "ends-at should be after starts-at"))
  /\ (s < e ->
      forall detail,
        validate_date now event data
        <> Raise (UnprocessableEntityError "/data/attributes/ends-at"
                                           detail)).
Proof.
  intros Hs He. rewrite (validate_date_dates now event data s e Hs He).
  split.
  - intros Hge. destruct (Z.geb_spec s e); [reflexivity|lia].
  - intros Hlt detail. destruct (Z.geb_spec s e); [lia|].
    destruct (s <=? now); [|discriminate].
    destruct (is_restore _ _); [discriminate|].
    destruct (is_soft_delete _ _); discriminate.
Qed.

(** A restore: the event was deleted at 5, started at 10 and ended at 20;
    at instant 100 the payload clears the mark and asks for 'published'. *)
Lemma validate_date_past_start_witness :
  exists data',
    validate_date 100 (Some (Sample.event 1 "published" 10 20 (Some 5) 0))
      (Data.mk Absent (Val "published") Absent Absent Null Absent)
    = Ok data'
    /\ Data.state data' = Val "draft"
    /\ Data.name data' = Absent
    /\ Data.deleted_at data' = Null
    /\ Data.original_image_url data' = Absent
    /\ get (Data.starts_at data') = Some 10
    /\ get (Data.ends_at data') = Some 20.
Proof.
  apply (proj1 (validate_date_past_start 100
                  (Some (Sample.event 1 "published" 10 20 (Some 5) 0))
                  (Data.mk Absent (Val "published") Absent Absent Null Absent))
               10 20); [reflexivity | reflexivity | lia | lia].
Defined.

(** C1 as stated fails, twice.  At instant 100 an event deleted at 5,
    which started at 10, is renamed by a payload that does not mention
    [deleted_at]: the payload clears nothing, and it is accepted with the
    state 'draft' where the claim has the starts-at error.  And a
    creation that starts at 20 and ends at 10, a start in the past, is
    refused with the ends-at error, not the starts-at one. *)
Lemma past_start_other_outcomes :
  (Data.deleted_at
     (Data.mk (Val "Summit 2") Absent Absent Absent Absent Absent) = Absent
   /\ validate_date 100 (Some (Sample.event 1 "published" 10 20 (Some 5) 0))
        (Data.mk (Val "Summit 2") Absent Absent Absent Absent Absent)
      = Ok (Data.mk (Val "Summit 2") (Val "draft") (Val 10) (Val 20)
                    Absent Absent))
  /\ (validate_date 100 None
        (Data.mk (Val "Summit") (Val "published") (Val 20) (Val 10)
                 Absent Absent)
      = Raise ends_at_error
      /\ ends_at_error <> starts_at_error).
Proof. repeat split; discriminate. Qed.

(** Equal instants are rejected. *)
Lemma validate_date_order_witness :
  validate_date 0 None
    (Data.mk Absent (Val "published") (Val 20) (Val 20) Absent Absent)
  = Raise ends_at_error.
Proof.
  apply (proj1 (validate_date_order 0 None
                  (Data.mk Absent (Val "published") (Val 20) (Val 20)
                           Absent Absent)
                  20 20 eq_refl eq_refl)); lia.
Defined.

(** ** Creation and update *)

Lemma date_step_keeps_deleted_at now event data data' :
  date_step now event data = Ok data' ->
  Data.deleted_at data' = Data.deleted_at data.
Proof.
  unfold date_step. destruct (_ || _ || _).
  - apply validate_date_keeps_deleted_at.
  - now intros [= <-].
Qed.

(** When a date of the payload differs from the stored one, the date
    step is [validate_date]. *)
Lemma date_step_changed now event data :
  get (Data.starts_at data) <> Event.starts_at event
  \/ get (Data.ends_at data) <> Event.ends_at event ->
  date_step now event data = validate_date now (Some event) data.
Proof.
  intros H. unfold date_step, dt_eqb.
  destruct H as [H|H]; rewrite (bool_decide_eq_false_2 _ H); simpl;
    [reflexivity|].
  now rewrite orb_true_r.
Qed.

Lemma before_update_object_inv now rq event data w event' data' w' :
  before_update_object now rq event data w = Ok (event', data', w') ->
  date_step now event data = Ok data'
  /\ deletion_step rq event data' = Ok event'.
Proof.
  unfold before_update_object.
  destruct (date_step now event data) as [d|]; [|discriminate]. simpl.
  destruct (deletion_step rq event d) as [ev|] eqn:Hdel; [|discriminate].
  simpl. intros [= <- <- <-]. now split.
Qed.

(** C4, as the code has it.  A creation whose state is not 'draft' is
    accepted only with both dates present and [starts_at] strictly before
    [ends_at]; so is, on the effective dates, an update whose payload
    does not repeat both stored dates (a date left out of the payload
    differs from the stored one).  A creation in state 'draft' is
    accepted without the date check. *)
Theorem accepted_dates_ordered (now : Z) :
  (forall db kwargs data data',
     before_post now db kwargs data = Ok data' ->
     get (Data.state data) <> Some "draft" ->
     exists s e, get (Data.starts_at data') = Some s
                 /\ get (Data.ends_at data') = Some e /\ s < e)
  /\ (forall rq event data w event' data' w',
        before_update_object now rq event data w = Ok (event', data', w') ->
        get (Data.starts_at data) <> Event.starts_at event
        \/ get (Data.ends_at data) <> Event.ends_at event ->
        exists s e, get (Data.starts_at data') = Some s
                    /\ get (Data.ends_at data') = Some e /\ s < e).
Proof.
  split.
  - intros db kwargs data data'. unfold before_post.
    destruct (dict_index kwargs "user_id") as [uid|]; [|discriminate].
    simpl. destruct (users db uid) as [user|]; [|discriminate].
    destruct (validate_event user data); [|discriminate]. simpl.
    intros H Hstate.
    assert (Hchecked : validate_date now None data = Ok data').
    { unfold str_eqb in H.
      destruct (Data.state data); [discriminate|exact H|].
      rewrite (bool_decide_eq_false_2 _ Hstate) in H. exact H. }
    exact (validate_date_accepts now None data data' Hchecked).
  - intros rq event data w event' data' w' H Hchanged.
    apply before_update_object_inv in H as [Hd _].
    rewrite (date_step_changed now event data Hchanged) in Hd.
    exact (validate_date_accepts now (Some event) data data' Hd).
Qed.

(** A creation that is checked, and passes. *)
Lemma accepted_dates_ordered_witness :
  exists s e, Some 200 = Some s /\ Some 300 = Some e /\ s < e.
Proof.
  apply (proj1 (accepted_dates_ordered 100) Sample.db {["user_id" := VInt 1]}
               (Data.mk (Val "Summit") (Val "published") (Val 200) (Val 300)
                        Absent Absent)
               (Data.mk (Val "Summit") (Val "published") (Val 200) (Val 300)
                        Absent Absent)).
  - vm_compute. reflexivity.
  - simpl. discriminate.
Defined.

(** C4 as stated fails: the creation of a draft that starts at 20 and
    ends at 10 is accepted. *)
Lemma draft_creation_unchecked :
  before_post 0 Sample.db {["user_id" := VInt 1]}
    (Data.mk (Val "Summit") (Val "draft") (Val 20) (Val 10) Absent Absent)
  = Ok (Data.mk (Val "Summit") (Val "draft") (Val 20) (Val 10) Absent Absent)
  /\ ~ (20 < 10).
Proof. split; [vm_compute; reflexivity | lia]. Qed.






(** ** Side effects of a creation *)

(** C9. A successful [after_create_object] on an event that is published
    with a [schedule_published_on], with a cover-image URL in the payload,
    submits exactly four tasks: the xCal, iCal and Pentabarf exports and
    the image resizing.  Each export has an export-job record pairing its
    task handle with the event id; no event is saved and the event is
    returned as it was, so no export URL is cleared.  The call is
    successful whenever the creating user and the owner role exist. *)
Theorem create_published_dispatch (db : DB) (event : Event.t)
  (data : Data.t) (view_kwargs : gmap string val) (w : World)
  (t : Z) (url : string) :
  Event.state event = Some "published" ->
  Event.schedule_published_on event = Some t ->
  get (Data.original_image_url data) = Some url ->
  url <> "" ->
  (forall event' w',
     after_create_object db event data view_kwargs w = Ok (event', w') ->
     let n := length (queue w) in
     let id := Event.id event in
     queue w' = (queue w ++ [ (n, export_xcal_task id false);
                              (S n, export_ical_task id false);
                              (S (S n), export_pentabarf_task id false);
                              (S (S (S n)), resize_event_images_task id url) ]
                )%list
     /\ export_jobs w'
        = (export_jobs w ++ [ (n, id); (S n, id); (S (S n), id) ])%list
     /\ event' = event
     /\ (forall e, SavedEvent e ∈ session w' -> SavedEvent e ∈ session w))
  /\ (forall uid user title_name,
        view_kwargs !! "user_id" = Some uid ->
        users db uid = Some user ->
        owner_role db = Some title_name ->
        exists w', after_create_object db event data view_kwargs w
                   = Ok (event, w')).
Proof.
  intros Hstate Hsched Hurl Hne.
  assert (Hpub : published_and_scheduled event = true).
  { unfold published_and_scheduled, str_eqb.
    rewrite Hstate, Hsched. reflexivity. }
  assert (Htruthy : str_truthy (get (Data.original_image_url data)) = true).
  { rewrite Hurl. simpl. apply negb_true_iff, String.eqb_neq, Hne. }
  split.
  - intros event' w'. unfold after_create_object, dict_index.
    destruct (view_kwargs !! "user_id") as [uid|]; [|discriminate]. simpl.
    destruct (users db uid) as [user|]; [|discriminate].
    destruct (owner_role db) as [title_name|]; [|discriminate].
    rewrite Hpub, Htruthy, Hurl. intros [= <- <-]. simpl.
    rewrite !length_app. simpl.
    rewrite <- !app_assoc. simpl.
    rewrite !Nat.add_1_r.
    split; [reflexivity|]. split; [reflexivity|]. split; [reflexivity|].
    intros e. rewrite elem_of_app, !elem_of_cons, elem_of_nil.
    intros [He|[He|[He|[]]]]; [exact He|discriminate|discriminate].
  - intros uid user title_name Huid Huser Hrole.
    unfold after_create_object, dict_index.
    rewrite Huid. simpl. rewrite Huser, Hrole. eauto.
Qed.

(** User 1 creates event 5, published and scheduled, with a cover image. *)
Lemma create_published_dispatch_witness :
  exists w',
    after_create_object Sample.db Sample.scheduled
      (Data.mk (Val "FOSSASIA Summit") (Val "published") (Val 200) (Val 300)
               Absent (Val "https://example.org/cover.png"))
      {["user_id" := VInt 1]} Sample.empty_world
    = Ok (Sample.scheduled, w').
Proof.
  refine (proj2 (create_published_dispatch Sample.db Sample.scheduled
                   (Data.mk (Val "FOSSASIA Summit") (Val "published")
                            (Val 200) (Val 300) Absent
                            (Val "https://example.org/cover.png"))
                   {["user_id" := VInt 1]} Sample.empty_world 150
                   "https://example.org/cover.png" _ _ _ _)
                (VInt 1) Sample.alice "Owner" _ _ _).
  - reflexivity.
  - reflexivity.
  - reflexivity.
  - discriminate.
  - vm_compute. reflexivity.
  - reflexivity.
  - reflexivity.
Defined.

(** ** Fetching one event *)

(** C10. When the fetched event is a draft and the caller is not logged
    in or is not a co-organizer of it, [after_get_object] raises
    [ObjectNotFound] with the detail "Event: not found", and no
    [ForbiddenError]; the exception is the same for every such event, so
    it tells nothing about the draft it hides. *)
Theorem draft_hidden_as_not_found (rq : Request) (ev : Event.t) :
  Event.state ev = Some "draft" ->
  is_logged_in rq = false \/ is_coorganizer rq (VInt (Event.id ev)) = false ->
  after_get_object rq (Some ev)
  = Raise (ObjectNotFound "{id}" "Event: not found" [])
  /\ (forall source detail,
        after_get_object rq (Some ev) <> Raise (ForbiddenError source detail)).
Proof.
  intros Hdraft Hcaller.
  assert (H : after_get_object rq (Some ev)
              = Raise (ObjectNotFound "{id}" "Event: not found" [])).
  { unfold after_get_object, str_eqb. rewrite Hdraft. simpl.
    destruct Hcaller as [-> | ->]; [reflexivity|].
    now rewrite orb_true_r. }
  split; [exact H|]. intros source detail. rewrite H. discriminate.
Qed.

(** An anonymous caller fetches the draft 9. *)
Lemma draft_hidden_as_not_found_witness :
  after_get_object Sample.anonymous_get
    (Some (Sample.event 9 "draft" 200 300 None 0))
  = Raise (ObjectNotFound "{id}" "Event: not found" []).
Proof.
  apply (draft_hidden_as_not_found Sample.anonymous_get
           (Sample.event 9 "draft" 200 300 None 0)).
  - reflexivity.
  - left. reflexivity.
Defined.

(** ** The visibility filter *)

Lemma holds_role_spec db uid f e :
  holds_role db uid f e = true
  <-> has_role db uid (fun r => role_matches f r = true) e.
Proof.
  unfold holds_role, has_role. rewrite existsb_exists. split.
  - intros (a & Hin & H). apply andb_prop in H as [H Hr].
    apply andb_prop in H as [He Hu].
    exists a. rewrite list_elem_of_In. repeat split; [assumption|lia|lia|done].
  - intros (a & Hin & Hu & He & Hr). exists a.
    rewrite <- list_elem_of_In. split; [assumption|].
    rewrite Hr, andb_true_r. apply andb_true_intro. split; lia.
Qed.

Lemma holds_role_manages db uid e :
  holds_role db uid (OneOf [COORGANIZER; ORGANIZER; OWNER]) e = true
  <-> manages db uid e.
Proof.
  rewrite holds_role_spec. unfold manages, has_role.
  split; intros (a & Hin & Hu & He & Hr); exists a;
    (repeat split; [assumption..|]); simpl in *.
  - apply bool_decide_eq_true_1 in Hr.
    rewrite !elem_of_cons, elem_of_nil in Hr. tauto.
  - apply bool_decide_eq_true_2.
    rewrite !elem_of_cons, elem_of_nil. tauto.
Qed.

Section Scoping.

Variables (rq : Request) (db : DB) (view_kwargs : gmap string val).

Lemma role_scope_skip k p f q :
  truthy (dict_get view_kwargs k) = false ->
  role_scope rq db k p f view_kwargs q = Ok q.
Proof. unfold role_scope. now intros ->. Qed.

Lemma class_scope_skip k col q :
  truthy (dict_get view_kwargs k) = false ->
  class_scope rq k col view_kwargs q = Ok q.
Proof. unfold class_scope. now intros ->. Qed.

Lemma discount_scope_skip q :
  truthy (dict_get view_kwargs "discount_code_id") = false ->
  discount_scope rq db view_kwargs q = Ok q.
Proof. unfold discount_scope. now intros ->. Qed.

(** A scoping block whose parameter is present, on a GET, for a caller
    allowed to read the target user, who exists. *)
Lemma role_scope_hit k p f q v n user :
  method_has_GET rq = true ->
  view_kwargs !! k = Some v ->
  truthy v = true ->
  py_int rq v = Ok n ->
  is_user_itself rq n = true ->
  users db v = Some user ->
  role_scope rq db k p f view_kwargs q
  = Ok (join_roles db (User.id user) f q).
Proof.
  intros Hget Hv Ht Hn Hself Huser.
  unfold role_scope, dict_get, dict_index, safe_query_user.
  rewrite Hv. simpl. rewrite Ht, Hget. simpl.
  rewrite Hn. simpl. rewrite Hself. simpl. now rewrite Huser.
Qed.

(** A scoping block never adds an event to the query. *)
Lemma role_scope_narrows k p f q q' :
  role_scope rq db k p f view_kwargs q = Ok q' ->
  forall e, q' e = true -> q e = true.
Proof.
  unfold role_scope. destruct (_ && _).
  - destruct (dict_index view_kwargs k) as [v|]; [|discriminate]. simpl.
    destruct (py_int rq v) as [n|]; [|discriminate]. simpl.
    destruct (negb (is_user_itself rq n)); [discriminate|].
    destruct (safe_query_user db v p) as [user|]; [|discriminate]. simpl.
    intros [= <-] e. unfold join_roles.
    intros H. now apply andb_prop in H as [H _].
  - now intros [= <-].
Qed.

Lemma run_role_scopes_skip ss q :
  (forall s, s ∈ ss -> truthy (dict_get view_kwargs (fst (fst s))) = false) ->
  run_role_scopes rq db ss view_kwargs q = Ok q.
Proof.
  induction ss as [|[[k p] f] ss IH]; intros H; [reflexivity|].
  simpl. rewrite role_scope_skip.
  - simpl. apply IH. intros s Hs. apply H. now right.
  - apply (H (k, p, f)). now left.
Qed.

Lemma run_role_scopes_narrows ss q q' :
  run_role_scopes rq db ss view_kwargs q = Ok q' ->
  forall e, q' e = true -> q e = true.
Proof.
  revert q. induction ss as [|[[k p] f] ss IH]; intros q.
  - now intros [= <-].
  - simpl.
    destruct (role_scope rq db k p f view_kwargs q) as [q1|] eqn:H1;
      [|discriminate].
    simpl. intros H e He.
    eapply role_scope_narrows; [exact H1|]. eapply IH; eassumption.
Qed.

(** Among scopings with distinct parameters, when one is present and the
    others are not, the query is joined once, with that scoping's
    filter. *)
Lemma run_role_scopes_one ss k p f q v n user :
  NoDup (map (fun s => fst (fst s)) ss) ->
  (k, p, f) ∈ ss ->
  (forall k', k' ∈ map (fun s => fst (fst s)) ss -> k' <> k ->
              truthy (dict_get view_kwargs k') = false) ->
  method_has_GET rq = true ->
  view_kwargs !! k = Some v ->
  truthy v = true ->
  py_int rq v = Ok n ->
  is_user_itself rq n = true ->
  users db v = Some user ->
  run_role_scopes rq db ss view_kwargs q
  = Ok (join_roles db (User.id user) f q).
Proof.
  intros Hnd Hin Hothers Hget Hv Ht Hn Hself Huser. revert q.
  induction ss as [|[[k1 p1] f1] ss IH]; intros q.
  - now apply elem_of_nil in Hin.
  - simpl in Hnd. apply NoDup_cons in Hnd as [Hfresh Hnd].
    apply elem_of_cons in Hin as [Heq|Hin].
    + injection Heq as <- <- <-. simpl.
      rewrite (role_scope_hit k p f q v n user) by assumption. simpl.
      apply run_role_scopes_skip. intros s Hs.
      apply Hothers.
      * right. apply list_elem_of_fmap. now exists s.
      * intros Hk. apply Hfresh. rewrite <- Hk.
        apply list_elem_of_fmap. now exists s.
    + assert (Hne : k1 <> k).
      { intros ->. apply Hfresh.
        apply list_elem_of_fmap. now exists (k, p, f). }
      simpl. rewrite role_scope_skip.
      * simpl. apply IH; [assumption..|].
        intros k' Hk'. apply Hothers. now right.
      * apply Hothers; [now left|assumption].
Qed.

(** Without a replacing parameter, the query is what the scoping blocks
    return. *)
Lemma EventList_query_no_replacement :
  (forall k, k ∈ replacement_keys ->
             truthy (dict_get view_kwargs k) = false) ->
  EventList_query rq db view_kwargs
  = run_role_scopes rq db role_scopes view_kwargs (base_query rq db).
Proof.
  intros H. unfold EventList_query.
  assert (Hk : forall k, In k replacement_keys ->
                         truthy (dict_get view_kwargs k) = false).
  { intros k Hk. apply H, list_elem_of_In, Hk. }
  destruct (run_role_scopes _ _ _ _ _) as [q|]; [|reflexivity]. simpl.
  rewrite class_scope_skip by (apply Hk; simpl; tauto). simpl.
  rewrite class_scope_skip by (apply Hk; simpl; tauto). simpl.
  rewrite class_scope_skip by (apply Hk; simpl; tauto). simpl.
  apply discount_scope_skip, Hk. simpl. tauto.
Qed.

End Scoping.

Lemma role_matches_satisfies f r :
  role_matches f r = true <-> satisfies f r.
Proof.
  destruct f as [r'|r'|rs]; simpl.
  - apply bool_decide_eq_true.
  - rewrite negb_true_iff. apply bool_decide_eq_false.
  - apply bool_decide_eq_true.
Qed.

Lemma holds_role_satisfies db uid f e :
  holds_role db uid f e = true <-> has_role db uid (satisfies f) e.
Proof.
  rewrite holds_role_spec. unfold has_role.
  split; intros (a & Hin & Hu & He & Hr); exists a;
    (repeat split; [assumption..|]); now apply role_matches_satisfies.
Qed.

(** The base query of a logged-in caller who is not staff. *)
Lemma base_query_member rq db uid e :
  caller rq = Authenticated uid false ->
  base_query rq db e = true
  <-> Event.state e = Some "published" \/ manages db uid e.
Proof.
  intros Hc. unfold base_query, default_query. rewrite Hc. simpl.
  unfold union, filter_published, join_roles, all_events, str_eqb. simpl.
  rewrite orb_true_iff, bool_decide_eq_true, holds_role_manages.
  reflexivity.
Qed.

(** C6. For a logged-in caller who is not staff, on a route without
    scoping parameter, [EventList.query] returns the union of the
    published events with the events on which the caller is owner,
    organizer or co-organizer: every published event is selected, every
    event the caller manages is selected whatever its state, and a draft
    the caller does not manage is not. *)
Theorem managed_or_published (rq : Request) (db : DB)
  (view_kwargs : gmap string val) (uid : Z) :
  caller rq = Authenticated uid false ->
  (forall k, k ∈ scoping_keys -> truthy (dict_get view_kwargs k) = false) ->
  exists q,
    EventList_query rq db view_kwargs = Ok q
    /\ (forall e, q e = true
                  <-> Event.state e = Some "published" \/ manages db uid e)
    /\ (forall e, Event.state e = Some "published" -> q e = true)
    /\ (forall e, manages db uid e -> q e = true)
    /\ (forall e, Event.state e = Some "draft" -> ~ manages db uid e ->
                  q e = false).
Proof.
  intros Hc Hnone. exists (base_query rq db).
  assert (Hq : forall e, base_query rq db e = true
                         <-> Event.state e = Some "published"
                             \/ manages db uid e).
  { intros e. now apply base_query_member. }
  split; [|split; [exact Hq|split; [|split]]].
  - rewrite EventList_query_no_replacement.
    + apply run_role_scopes_skip. intros s Hs. apply Hnone.
      unfold scoping_keys. apply elem_of_app. left.
      apply list_elem_of_fmap. now exists s.
    + intros k Hk. apply Hnone. unfold scoping_keys.
      apply elem_of_app. now right.
  - intros e He. apply Hq. now left.
  - intros e He. apply Hq. now right.
  - intros e Hdraft Hnot. apply not_true_is_false. intros H.
    apply Hq in H as [H|H]; [congruence|contradiction].
Qed.

(** User 1, owner of event 11 and registrar of event 10, lists the
    events. *)
Lemma managed_or_published_witness :
  exists q,
    EventList_query Sample.alice_get Sample.db ∅ = Ok q
    /\ (forall e, q e = true
                  <-> Event.state e = Some "published"
                      \/ manages Sample.db 1 e)
    /\ (forall e, Event.state e = Some "published" -> q e = true)
    /\ (forall e, manages Sample.db 1 e -> q e = true)
    /\ (forall e, Event.state e = Some "draft" -> ~ manages Sample.db 1 e ->
                  q e = false).
Proof.
  apply (managed_or_published Sample.alice_get Sample.db ∅ 1).
  - reflexivity.
  - intros k _. unfold dict_get. rewrite lookup_empty. reflexivity.
Defined.

(** C5, as the code has it.  The query of lines 130-133 selects exactly
    the published events for a caller who is anonymous or not staff, and
    every event for a staff caller; and for an anonymous caller on a
    route without classification or discount-code parameter, every event
    [EventList.query] selects is published, hence no draft. *)
Theorem anonymous_sees_published (rq : Request) (db : DB)
  (view_kwargs : gmap string val) :
  (caller rq = Anonymous \/ (exists uid, caller rq = Authenticated uid false) ->
   forall e, default_query rq e = true <-> Event.state e = Some "published")
  /\ ((exists uid, caller rq = Authenticated uid true) ->
      forall e, default_query rq e = true)
  /\ (caller rq = Anonymous ->
      (forall k, k ∈ replacement_keys ->
                 truthy (dict_get view_kwargs k) = false) ->
      forall q, EventList_query rq db view_kwargs = Ok q ->
        forall e, q e = true ->
          Event.state e = Some "published"
          /\ Event.state e <> Some "draft").
Proof.
  split; [|split].
  - intros Hc e. unfold default_query, filter_published, all_events, str_eqb.
    destruct Hc as [-> | [uid ->]]; simpl; apply bool_decide_eq_true.
  - intros [uid Hc] e. unfold default_query. now rewrite Hc.
  - intros Hc Hnone q Hq e He.
    rewrite EventList_query_no_replacement in Hq by assumption.
    apply (run_role_scopes_narrows _ _ _ _ _ _ Hq) in He.
    unfold base_query, default_query in He. rewrite Hc in He.
    unfold filter_published, all_events, str_eqb in He. simpl in He.
    apply bool_decide_eq_true in He. rewrite He. split; [reflexivity|].
    discriminate.
Qed.

(** An anonymous caller lists the events: event 5 is selected, and is
    published. *)
Lemma anonymous_sees_published_witness :
  Event.state Sample.scheduled = Some "published"
  /\ Event.state Sample.scheduled <> Some "draft".
Proof.
  refine (proj2 (proj2 (anonymous_sees_published Sample.anonymous_get
                          Sample.db ∅)) _ _
                (base_query Sample.anonymous_get Sample.db) _
                Sample.scheduled _).
  - reflexivity.
  - intros k _. unfold dict_get. rewrite lookup_empty. reflexivity.
  - reflexivity.
  - reflexivity.
Defined.

(** C5 as stated fails: on the route of event type 3 an anonymous caller
    is returned event 10, a draft. *)
Lemma anonymous_sees_draft :
  match EventList_query Sample.anonymous_get Sample.db
          {["event_type_id" := VInt 3]} with
  | Ok q => q Sample.typed_draft
  | Raise _ => false
  end = true
  /\ Event.state Sample.typed_draft = Some "draft".
Proof. split; [vm_compute; reflexivity | reflexivity]. Qed.

Lemma role_scopes_distinct :
  NoDup (map (fun s : string * string * RoleFilter => fst (fst s))
             role_scopes).
Proof. apply (bool_decide_unpack _). vm_compute. reflexivity. Qed.

Lemma role_scopes_not_replacing :
  Forall (fun s : string * string * RoleFilter =>
            fst (fst s) ∉ replacement_keys) role_scopes.
Proof. apply (bool_decide_unpack _). vm_compute. reflexivity. Qed.

(** C2, as the code has it.  On a GET scoped to a target user by one of
    the nine user parameters, the caller being allowed to read that
    user's data and no other scoping parameter being present,
    [EventList.query] returns the caller's published-or-managed query
    intersected with the events on which the target user has a role
    satisfying the scoping's filter: the named role for the eight role
    scopings, any role but attendee for [user_id]. *)
Theorem role_scope_intersects (rq : Request) (db : DB)
  (view_kwargs : gmap string val) (k p : string) (f : RoleFilter)
  (v : val) (n : Z) (user : User.t) :
  (k, p, f) ∈ role_scopes ->
  method_has_GET rq = true ->
  view_kwargs !! k = Some v ->
  truthy v = true ->
  py_int rq v = Ok n ->
  is_user_itself rq n = true ->
  users db v = Some user ->
  (forall k', k' ∈ scoping_keys -> k' <> k ->
              truthy (dict_get view_kwargs k') = false) ->
  exists q,
    EventList_query rq db view_kwargs = Ok q
    /\ forall e, q e = true
                 <-> base_query rq db e = true
                     /\ has_role db (User.id user) (satisfies f) e.
Proof.
  intros Hin Hget Hv Ht Hn Hself Huser Hothers.
  exists (join_roles db (User.id user) f (base_query rq db)). split.
  - rewrite EventList_query_no_replacement.
    + apply (run_role_scopes_one rq db view_kwargs role_scopes k p f _ v n);
        try assumption; [apply role_scopes_distinct|].
      intros k' Hk'. apply Hothers. unfold scoping_keys.
      apply elem_of_app. now left.
    + intros k' Hk'. apply Hothers.
      * unfold scoping_keys. apply elem_of_app. now right.
      * intros ->.
        pose proof role_scopes_not_replacing as Hdisj.
        rewrite Forall_forall in Hdisj. exact (Hdisj _ Hin Hk').
  - intros e. unfold join_roles.
    now rewrite andb_true_iff, holds_role_satisfies.
Qed.

(** User 1 lists the events on which they are owner. *)
Lemma role_scope_intersects_witness :
  exists q,
    EventList_query Sample.alice_get Sample.db {["user_owner_id" := VInt 1]}
    = Ok q
    /\ forall e, q e = true
                 <-> base_query Sample.alice_get Sample.db e = true
                     /\ has_role Sample.db 1 (satisfies (Is OWNER)) e.
Proof.
  apply (role_scope_intersects Sample.alice_get Sample.db
           {["user_owner_id" := VInt 1]} "user_owner_id" "user_owner_id"
           (Is OWNER) (VInt 1) 1 Sample.alice).
  - apply list_elem_of_In. right. left. reflexivity.
  - reflexivity.
  - reflexivity.
  - reflexivity.
  - reflexivity.
  - reflexivity.
  - reflexivity.
  - intros k' _ Hne. unfold dict_get.
    now rewrite lookup_singleton_ne.
Defined.

(** C2 as stated fails: user 1 is registrar of event 10, a draft they do
    not manage, and the list of the events on which user 1 is registrar,
    asked by user 1, does not contain it. *)
Lemma registrar_draft_not_listed :
  holds_role Sample.db 1 (Is REGISTRAR) Sample.typed_draft = true
  /\ Event.state Sample.typed_draft = Some "draft"
  /\ base_query Sample.alice_get Sample.db Sample.typed_draft = false
  /\ match EventList_query Sample.alice_get Sample.db
             {["user_registrar_id" := VInt 1]} with
     | Ok q => q Sample.typed_draft
     | Raise _ => true
     end = false.
Proof. repeat split; vm_compute; reflexivity. Qed.

(** ** The owner resolver *)

Section Resolver.

Variable db : DB.

Lemma test_none t : test t VNone = false.
Proof. now destruct t. Qed.

Lemma dict_get_insert_ne (m : gmap string val) k k' x :
  k <> k' -> dict_get (<[k := x]> m) k' = dict_get m k'.
Proof. intros H. unfold dict_get. now rewrite lookup_insert_ne. Qed.

(** A block writes to no key of [view_kwargs] but ['id']. *)
Lemma run_branch_frame b (vk vk' : gmap string val) k :
  run_branch db b vk = Ok vk' -> k <> "id" ->
  dict_get vk' k = dict_get vk k.
Proof.
  unfold run_branch. intros H Hk.
  destruct (test (guard b) _); [|now injection H as <-].
  destruct (fetch_row db b vk) as [r|]; [|discriminate]. simpl in H.
  destruct (test (owned b) _);
    [|destruct (has_else b)]; injection H as <-;
    try reflexivity; now apply dict_get_insert_ne.
Qed.

Lemma run_branches_skip bs (vk : gmap string val) :
  (forall b, b ∈ bs -> dict_get vk (key b) = VNone) ->
  run_branches db bs vk = Ok vk.
Proof.
  induction bs as [|b bs IH]; intros H; [reflexivity|].
  simpl. unfold run_branch at 1.
  rewrite (H b) by now left. rewrite test_none. simpl.
  apply IH. intros b' Hb'. apply H. now right.
Qed.

(** When the parameter of one block is the only one present, the blocks
    together do what that block does. *)
Lemma run_branches_one bs b (vk : gmap string val) :
  NoDup (map key bs) ->
  "id" ∉ map key bs ->
  b ∈ bs ->
  (forall b', b' ∈ bs -> key b' <> key b -> dict_get vk (key b') = VNone) ->
  run_branches db bs vk = run_branch db b vk.
Proof.
  intros Hnd Hid Hin Hothers.
  induction bs as [|b1 bs IH]; [now apply elem_of_nil in Hin|].
  simpl in Hnd, Hid. apply NoDup_cons in Hnd as [Hfresh Hnd].
  apply not_elem_of_cons in Hid as [Hid1 Hid].
  apply elem_of_cons in Hin as [<-|Hin].
  - simpl. destruct (run_branch db b vk) as [vk'|] eqn:Hb; [|reflexivity].
    simpl. apply run_branches_skip. intros b' Hb'.
    assert (Hk : key b' ∈ map key bs).
    { apply list_elem_of_fmap. now exists b'. }
    rewrite (run_branch_frame b vk vk' (key b') Hb) by congruence.
    apply Hothers; [now right|congruence].
  - assert (Hne : key b1 <> key b).
    { intros Heq. apply Hfresh. rewrite Heq.
      apply list_elem_of_fmap. now exists b. }
    simpl. unfold run_branch at 1.
    rewrite (Hothers b1) by first [now left | assumption].
    rewrite test_none. simpl.
    apply IH; [assumption..|].
    intros b' Hb'. apply Hothers. now right.
Qed.

Lemma branches_keys :
  NoDup (map key branches)
  /\ ("id" ∉ map key branches)
  /\ ("identifier" ∉ map key branches).
Proof. repeat split; apply (bool_decide_unpack _); vm_compute; reflexivity. Qed.

(** [get_id] on a request that carries the parameter of one block of the
    table and nothing else. *)
Lemma get_id_single_key b (vk : gmap string val) :
  b ∈ branches ->
  (forall k, k <> key b -> vk !! k = None) ->
  get_id db vk = run_branch db b vk.
Proof.
  intros Hin Hothers. destruct branches_keys as (Hnd & Hid & Hident).
  assert (Hkey : key b ∈ map key branches).
  { apply list_elem_of_fmap. now exists b. }
  assert (Hi : truthy (dict_get vk "identifier") = false).
  { unfold dict_get. now rewrite Hothers by congruence. }
  unfold get_id, run_identifier. rewrite Hi.
  change (run_branches db branches vk = run_branch db b vk).
  apply run_branches_one; try assumption.
  intros b' _ Hne. unfold dict_get. now rewrite Hothers.
Qed.

(** Every block of the table but the one on [users_events_role_id] has
    the [else] that assigns [None]. *)
Lemma siblings_assign_none :
  Forall (fun b => key b <> "users_events_role_id" -> has_else b = true)
         branches.
Proof.
  unfold branches. repeat constructor; intros H; try reflexivity.
  now contradiction H.
Qed.

(** The parameter a block names in [ObjectNotFound] is the one whose
    value it fetches by. *)
Lemma branches_parameter :
  Forall (fun b => parameter b = arg b) branches.
Proof. unfold branches. repeat constructor. Qed.

(** What the blocks with the [else] do on a request with their parameter
    alone ([user_id] excepted, whose block reads [discount_code_id]):
    [ObjectNotFound] naming the parameter when there is no row, and
    ['id'] bound to [None] when the row has no event. *)
Lemma get_id_sibling b (vk : gmap string val) v :
  b ∈ branches ->
  key b <> "users_events_role_id" ->
  arg b = key b ->
  vk !! key b = Some v ->
  test (guard b) v = true ->
  (forall k, k <> key b -> vk !! k = None) ->
  (fetch db (model b) (column b) v = None ->
   exists args,
     get_id db vk = Raise (ObjectNotFound (key b) (detail b) args))
  /\ (forall r, fetch db (model b) (column b) v = Some r ->
        row_event_id r = None ->
        get_id db vk = Ok (<["id" := VNone]> vk)).
Proof.
  intros Hin Hkey Harg Hv Hguard Hothers.
  rewrite (get_id_single_key b vk Hin Hothers).
  assert (Helse : has_else b = true).
  { pose proof siblings_assign_none as H. rewrite Forall_forall in H.
    now apply H. }
  assert (Hparam : parameter b = key b).
  { pose proof branches_parameter as H. rewrite Forall_forall in H.
    rewrite <- Harg. now apply H. }
  unfold run_branch, fetch_row, dict_get, dict_index.
  rewrite Harg, Hv. simpl. rewrite Hguard. split.
  - intros ->. simpl. rewrite Hparam. eauto.
  - intros r -> Hnull. simpl. rewrite Hnull, test_none, Helse. reflexivity.
Qed.

End Resolver.

(** The block on [users_events_role_id] on a request with that parameter
    alone: when the role assignment exists and has no event, [get_id]
    returns [view_kwargs] as it received it. *)
Lemma get_id_orphan_role_assignment (db : DB) (vk : gmap string val)
  (v : val) (r : Row) :
  vk !! "users_events_role_id" = Some v ->
  v <> VNone ->
  (forall k, k <> "users_events_role_id" -> vk !! k = None) ->
  fetch db Model.UsersEventsRoles col_id v = Some r ->
  row_event_id r = None ->
  get_id db vk = Ok vk.
Proof.
  intros Hv Hnn Hothers Hrow Hnull.
  rewrite (get_id_single_key db
             (helper_branch "users_events_role_id" NotNone
                            Model.UsersEventsRoles col_id false) vk).
  - unfold run_branch, fetch_row, dict_get, dict_index. simpl.
    rewrite Hv. simpl.
    destruct v; [contradiction| |]; simpl; rewrite Hrow; simpl;
      now rewrite Hnull.
  - apply list_elem_of_In. unfold branches. simpl. tauto.
  - exact Hothers.
Qed.

(** C3 on the code.  Role assignment 4 exists and has no event.  On the
    request that carries [users_events_role_id = 4] alone, [get_id]
    returns without binding ['id'] at all; with [ticket_id = 1] beside it,
    ['id'] stays the event of the ticket, 8; whereas on
    [access_code_id = 4], a row without event as well, ['id'] is bound
    to [None]. *)
Theorem orphan_role_assignment_unresolved :
  match get_id Sample.orphans {["users_events_role_id" := VInt 4]} with
  | Ok vk => vk !! "id"
  | Raise _ => Some VNone
  end = None
  /\ match get_id Sample.orphans
             (<["ticket_id" := VInt 1]> {["users_events_role_id" := VInt 4]})
     with
     | Ok vk => vk !! "id"
     | Raise _ => Some VNone
     end = Some (VInt 8)
  /\ match get_id Sample.orphans {["access_code_id" := VInt 4]} with
     | Ok vk => vk !! "id"
     | Raise _ => None
     end = Some VNone.
Proof. repeat split; vm_compute; reflexivity. Qed.

(** * Further properties of the module *)

(** ** The creation and publication check *)

(** X1. [validate_event] accepts a payload exactly when the user may
    create events and, if the payload asks for 'published', may publish
    and the payload carries a non-empty name; it raises the conflict on
    the name exactly when nothing but the name is wanting; and it raises
    nothing but a [ForbiddenError] or that conflict. *)
Theorem validate_event_outcome (user : User.t) (data : Data.t) :
  (validate_event user data = Ok tt
   <-> User.can_create_event user = true
       /\ (get (Data.state data) = Some "published" ->
           User.can_publish_event user = true
           /\ str_truthy (get (Data.name data)) = true))
  /\ (validate_event user data
      = Raise (ConflictError "/data/attributes/name"
                             "Event Name is required to publish the event")
      <-> User.can_create_event user = true
          /\ get (Data.state data) = Some "published"
          /\ User.can_publish_event user = true
          /\ str_truthy (get (Data.name data)) = false)
  /\ (forall e, validate_event user data = Raise e ->
        (exists detail, e = ForbiddenError "" detail)
        \/ e = ConflictError "/data/attributes/name"
                             "Event Name is required to publish the event").
Proof.
  unfold validate_event, str_eqb.
  destruct (User.can_create_event user), (User.can_publish_event user),
    (str_truthy (get (Data.name data)));
    destruct (bool_decide_reflect
                (get (Data.state data) = Some "published")) as [Hp|Hp];
    simpl;
    (split; [intuition congruence|split; [intuition congruence|]]);
    intros e He; try discriminate; injection He as <-; eauto.
Qed.

(** ** More on the date-window check *)

Section DateWindowMore.

Variables (now : Z) (event : option Event.t) (data : Data.t).

Lemma fill_dates_idem :
  fill_dates event (fill_dates event data) = fill_dates event data.
Proof.
  unfold fill_dates. destruct event as [ev|]; [|reflexivity].
  destruct data as [n st s e d u]; simpl.
  destruct s, e; simpl; try reflexivity;
    destruct (Event.starts_at ev), (Event.ends_at ev); reflexivity.
Qed.

Lemma fill_dates_set_state x :
  fill_dates event (Data.set_state x data)
  = Data.set_state x (fill_dates event data).
Proof.
  unfold fill_dates. destruct event as [ev|]; [|reflexivity].
  destruct data as [n st s e d u]; simpl.
  destruct s, e; reflexivity.
Qed.

Lemma validate_date_missing :
  effective_starts_at event data = None
  \/ effective_ends_at event data = None ->
  validate_date now event data = Raise date_error.
Proof.
  unfold effective_starts_at, effective_ends_at, validate_date.
  intros [-> | ->]; [reflexivity|].
  now destruct (get (Data.starts_at _)).
Qed.

End DateWindowMore.

(** The two exemptions, read on the stored event and the payload. *)
Lemma is_restore_spec event data :
  is_restore event data = true
  <-> exists ev, event = Some ev
                 /\ Event.deleted_at ev <> None
                 /\ get (Data.deleted_at data) = None.
Proof.
  unfold is_restore. destruct event as [ev|].
  - destruct (Event.deleted_at ev) eqn:Hd,
             (get (Data.deleted_at data)) eqn:Hg; simpl;
      (split;
       [ intros H; try discriminate; exists ev; repeat split; congruence
       | intros (ev' & Heq & H1 & H2); injection Heq as <-;
         try reflexivity; congruence ]).
  - split; [discriminate|]. intros (ev & H & _). discriminate.
Qed.

Lemma is_soft_delete_spec event data :
  is_soft_delete event data = true
  <-> exists ev, event = Some ev
                 /\ Event.deleted_at ev = None
                 /\ get (Data.deleted_at data) <> None.
Proof.
  unfold is_soft_delete. destruct event as [ev|].
  - destruct (Event.deleted_at ev) eqn:Hd,
             (get (Data.deleted_at data)) eqn:Hg; simpl;
      (split;
       [ intros H; try discriminate; exists ev; repeat split; congruence
       | intros (ev' & Heq & H1 & H2); injection Heq as <-;
         try reflexivity; congruence ]).
  - split; [discriminate|]. intros (ev & H & _). discriminate.
Qed.

(** What an accepted payload went through. *)
Lemma validate_date_accepted_only_if now event data data' :
  validate_date now event data = Ok data' ->
  exists s e,
    effective_starts_at event data = Some s
    /\ effective_ends_at event data = Some e
    /\ s < e
    /\ (now < s \/ is_restore event data = true
        \/ is_soft_delete event data = true).
Proof.
  intros H.
  destruct (effective_starts_at event data) as [s|] eqn:Hs;
    [|rewrite validate_date_missing in H by auto; discriminate].
  destruct (effective_ends_at event data) as [e|] eqn:He;
    [|rewrite validate_date_missing in H by auto; discriminate].
  rewrite (validate_date_dates now event data s e Hs He) in H.
  exists s, e.
  destruct (Z.geb_spec s e) as [|Hlt]; [discriminate|].
  destruct (Z.leb_spec s now) as [Hle|Hgt]; [|intuition].
  destruct (is_restore event data); [intuition|].
  destruct (is_soft_delete event data); [intuition|discriminate].
Qed.

(** What suffices for a payload to be accepted.  A start after the
    evaluation instant is one whose timestamp is after that of the
    instant when both are [representable]. *)
Lemma validate_date_accepted_if now event data s e :
  effective_starts_at event data = Some s ->
  effective_ends_at event data = Some e ->
  s < e ->
  (representable now /\ representable s /\ now < s)
  \/ is_restore event data = true
  \/ is_soft_delete event data = true ->
  exists data', validate_date now event data = Ok data'.
Proof.
  intros Hs He Hlt H.
  rewrite (validate_date_dates now event data s e Hs He).
  destruct (Z.geb_spec s e); [lia|].
  destruct (Z.leb_spec s now) as [Hle|Hgt]; [|eauto].
  destruct (is_restore event data); [eauto|].
  destruct (is_soft_delete event data); [eauto|].
  destruct H as [(_ & _ & H)|[H|H]]; [lia|discriminate|discriminate].
Qed.

(** X2. What [validate_date] accepts.  An accepted payload has both
    effective dates, the start strictly before the end, and a start
    strictly after the evaluation instant unless the stored event has a
    deletion mark and the payload no [deleted_at] (bound to [None] or
    left out), or the stored event has none and the payload sets one.
    Conversely, with both effective dates in order, either exemption
    suffices for the payload to be accepted, and so does a start after
    the evaluation instant when both instants are before the year 2242,
    where the timestamps line 99 compares tell them apart. *)
Theorem validate_date_acceptance (now : Z) (event : option Event.t)
  (data : Data.t) :
  (forall data',
     validate_date now event data = Ok data' ->
     exists s e,
       effective_starts_at event data = Some s
       /\ effective_ends_at event data = Some e
       /\ s < e
       /\ (now < s
           \/ (exists ev, event = Some ev
                          /\ Event.deleted_at ev <> None
                          /\ get (Data.deleted_at data) = None)
           \/ (exists ev, event = Some ev
                          /\ Event.deleted_at ev = None
                          /\ get (Data.deleted_at data) <> None)))
  /\ (forall s e,
        effective_starts_at event data = Some s ->
        effective_ends_at event data = Some e ->
        s < e ->
        (representable now /\ representable s /\ now < s)
        \/ (exists ev, event = Some ev
                       /\ Event.deleted_at ev <> None
                       /\ get (Data.deleted_at data) = None)
        \/ (exists ev, event = Some ev
                       /\ Event.deleted_at ev = None
                       /\ get (Data.deleted_at data) <> None) ->
        exists data', validate_date now event data = Ok data').
Proof.
  split.
  - intros data' H.
    apply validate_date_accepted_only_if in H as (s & e & Hs & He & Hlt & H).
    exists s, e. rewrite <- is_restore_spec, <- is_soft_delete_spec. auto.
  - intros s e Hs He Hlt H.
    apply (validate_date_accepted_if now event data s e Hs He Hlt).
    now rewrite is_restore_spec, is_soft_delete_spec.
Qed.

(** At instant 100 a creation from 200 to 300 is accepted. *)
Lemma validate_date_acceptance_witness :
  exists data',
    validate_date 100 None
      (Data.mk (Val "Summit") (Val "published") (Val 200) (Val 300)
               Absent Absent)
    = Ok data'.
Proof.
  refine (proj2 (validate_date_acceptance 100 None
                   (Data.mk (Val "Summit") (Val "published") (Val 200)
                            (Val 300) Absent Absent))
                200 300 _ _ _ _).
  - reflexivity.
  - reflexivity.
  - lia.
  - left. unfold representable. simpl. lia.
Defined.

(** X3. [validate_date] raises the error on the date fields exactly when
    an effective date is missing.  A date the payload binds to [None] is
    not replaced by the stored one, so such an update is refused; and a
    creation needs both dates in its payload. *)
Theorem validate_date_missing_iff (now : Z) (event : option Event.t)
  (data : Data.t) :
  (validate_date now event data = Raise date_error
   <-> effective_starts_at event data = None
       \/ effective_ends_at event data = None)
  /\ (Data.starts_at data = Null \/ Data.ends_at data = Null ->
      validate_date now event data = Raise date_error)
  /\ (event = None ->
      get (Data.starts_at data) = None \/ get (Data.ends_at data) = None ->
      validate_date now event data = Raise date_error).
Proof.
  split; [|split].
  - split; [|apply validate_date_missing].
    destruct (effective_starts_at event data) as [s|] eqn:Hs; [|auto].
    destruct (effective_ends_at event data) as [e|] eqn:He; [|auto].
    rewrite (validate_date_dates now event data s e Hs He).
    destruct (s >=? e); [discriminate|].
    destruct (s <=? now); [|discriminate].
    destruct (is_restore _ _); [discriminate|].
    destruct (is_soft_delete _ _); discriminate.
  - intros H. apply validate_date_missing.
    unfold effective_starts_at, effective_ends_at, fill_dates.
    destruct data as [n st s e d u]. simpl in H.
    destruct event as [ev|]; destruct H as [-> | ->]; simpl; auto.
    + left. now destruct e.
    + right. now destruct s.
  - intros -> H. apply validate_date_missing. exact H.
Qed.

(** An update that binds [starts_at] to [None] on an event with both
    dates. *)
Lemma validate_date_missing_iff_witness :
  validate_date 0 (Some (Sample.event 1 "draft" 200 300 None 0))
    (Data.mk Absent Absent Null Absent Absent Absent)
  = Raise date_error.
Proof.
  apply (proj1 (proj2 (validate_date_missing_iff 0
                         (Some (Sample.event 1 "draft" 200 300 None 0))
                         (Data.mk Absent Absent Null Absent Absent Absent)))).
  left. reflexivity.
Defined.

(** X4. [validate_date] is idempotent: a payload it returns is accepted
    again, at the same instant and for the same event, and returned as it
    is. *)
Theorem validate_date_idempotent (now : Z) (event : option Event.t)
  (data data' : Data.t) :
  validate_date now event data = Ok data' ->
  validate_date now event data' = Ok data'.
Proof.
  intros H.
  destruct (effective_starts_at event data) as [s|] eqn:Hs;
    [|rewrite validate_date_missing in H by auto; discriminate].
  destruct (effective_ends_at event data) as [e|] eqn:He;
    [|rewrite validate_date_missing in H by auto; discriminate].
  rewrite (validate_date_dates now event data s e Hs He) in H.
  assert (Hfill : forall x, data' = x ->
            x = fill_dates event data
            \/ x = Data.set_state (Val "draft") (fill_dates event data) ->
            effective_starts_at event data' = Some s
            /\ effective_ends_at event data' = Some e
            /\ is_restore event data' = is_restore event data
            /\ is_soft_delete event data' = is_soft_delete event data
            /\ fill_dates event data' = data').
  { intros x -> Hx. unfold effective_starts_at, effective_ends_at in *.
    destruct Hx as [-> | ->];
      rewrite ?fill_dates_set_state, fill_dates_idem; simpl;
      unfold is_restore, is_soft_delete; simpl;
      rewrite ?fill_dates_deleted_at; auto. }
  destruct (s >=? e) eqn:Hge; [discriminate|].
  destruct (s <=? now) eqn:Hle.
  - destruct (is_restore event data) eqn:Hr;
      [|destruct (is_soft_delete event data) eqn:Hd; [|discriminate]];
      injection H as H; symmetry in H;
      destruct (Hfill _ H) as (Hs' & He' & Hr' & Hd' & Hf); auto;
      rewrite (validate_date_dates now event data' s e Hs' He');
      rewrite Hge, Hle, Hr', ?Hd', Hf;
      [now rewrite H|reflexivity].
  - injection H as H; symmetry in H.
    destruct (Hfill _ H) as (Hs' & He' & Hr' & Hd' & Hf); auto.
    rewrite (validate_date_dates now event data' s e Hs' He').
    now rewrite Hge, Hle, Hf.
Qed.

(** The restore of the claims' example, validated twice. *)
Lemma validate_date_idempotent_witness :
  validate_date 100 (Some (Sample.event 1 "published" 10 20 (Some 5) 0))
    (Data.mk Absent (Val "draft") (Val 10) (Val 20) Null Absent)
  = Ok (Data.mk Absent (Val "draft") (Val 10) (Val 20) Null Absent).
Proof.
  apply (validate_date_idempotent 100
           (Some (Sample.event 1 "published" 10 20 (Some 5) 0))
           (Data.mk Absent (Val "published") Absent Absent Null Absent)).
  reflexivity.
Defined.

(** ** More on creation and update *)

(** With no stored event, [validate_date] returns the payload as it
    received it. *)
Lemma validate_date_creation now data data' :
  validate_date now None data = Ok data' -> data' = data.
Proof.
  unfold validate_date. simpl.
  destruct (get (Data.starts_at data)); [|discriminate].
  destruct (get (Data.ends_at data)); [|discriminate].
  destruct (_ >=? _); [discriminate|].
  destruct (_ <=? _); [discriminate|]. now intros [= <-].
Qed.

(** [before_post] past its lookups and [validate_event]. *)
Lemma before_post_checked now db (kwargs : gmap string val) data uid user :
  kwargs !! "user_id" = Some uid ->
  users db uid = Some user ->
  validate_event user data = Ok tt ->
  Data.state data <> Absent ->
  before_post now db kwargs data
  = if bool_decide (get (Data.state data) = Some "draft") then Ok data
    else validate_date now None data.
Proof.
  intros Huid Hu Hev Hst. unfold before_post, dict_index, str_eqb.
  rewrite Huid. simpl. rewrite Hu, Hev. simpl.
  destruct (Data.state data); [contradiction| |]; simpl;
    first [reflexivity | now destruct (bool_decide _)].
Qed.

(** X5. What [before_post] accepts.  An accepted creation is returned as
    it was received; its creating user exists, [validate_event] accepts
    the payload, the payload has a ['state'] key, and either the state is
    'draft' or both dates are given with the start strictly after the
    evaluation instant and strictly before the end.  Conversely these
    conditions suffice for the creation to be accepted, the start and
    the evaluation instant being before the year 2242 when the state is
    not 'draft'. *)
Theorem before_post_acceptance (now : Z) (db : DB)
  (kwargs : gmap string val) (data : Data.t) :
  (forall data',
     before_post now db kwargs data = Ok data' ->
     data' = data
     /\ exists uid user,
          kwargs !! "user_id" = Some uid
          /\ users db uid = Some user
          /\ validate_event user data = Ok tt
          /\ Data.state data <> Absent
          /\ (get (Data.state data) = Some "draft"
              \/ exists s e, get (Data.starts_at data) = Some s
                             /\ get (Data.ends_at data) = Some e
                             /\ now < s /\ s < e))
  /\ (forall uid user,
        kwargs !! "user_id" = Some uid ->
        users db uid = Some user ->
        validate_event user data = Ok tt ->
        Data.state data <> Absent ->
        get (Data.state data) = Some "draft"
        \/ (exists s e, get (Data.starts_at data) = Some s
                        /\ get (Data.ends_at data) = Some e
                        /\ representable now /\ representable s
                        /\ now < s /\ s < e) ->
        before_post now db kwargs data = Ok data).
Proof.
  split.
  - intros data' H.
    assert (Hpre : exists uid user,
              kwargs !! "user_id" = Some uid
              /\ users db uid = Some user
              /\ validate_event user data = Ok tt
              /\ Data.state data <> Absent).
    { revert H. unfold before_post, dict_index.
      destruct (kwargs !! "user_id") as [uid|] eqn:Huid; [|discriminate].
      simpl. destruct (users db uid) as [user|] eqn:Hu; [|discriminate].
      destruct (validate_event user data) as [[]|err] eqn:Hev;
        [|discriminate].
      simpl. intros H. exists uid, user.
      split; [reflexivity|]. split; [exact Hu|]. split; [exact Hev|].
      intros Heq. rewrite Heq in H. discriminate. }
    destruct Hpre as (uid & user & Huid & Hu & Hev & Hst).
    rewrite (before_post_checked now db kwargs data uid user Huid Hu Hev Hst)
      in H.
    destruct (bool_decide_reflect (get (Data.state data) = Some "draft"))
      as [Hd|Hd].
    + injection H as <-. split; [reflexivity|].
      exists uid, user. repeat split; try assumption. now left.
    + apply validate_date_creation in H as Heq. split; [exact Heq|].
      exists uid, user. repeat split; try assumption. right.
      apply validate_date_accepted_only_if
        in H as (s & e & Hs & He & Hlt & [H|[H|H]]);
        [|discriminate|discriminate].
      exists s, e. auto.
  - intros uid user Huid Hu Hev Hst Hcase.
    rewrite (before_post_checked now db kwargs data uid user Huid Hu Hev Hst).
    destruct Hcase as [Hd|(s & e & Hs & He & Hrn & Hrs & Hgt & Hlt)].
    + now rewrite (bool_decide_eq_true_2 _ Hd).
    + destruct (bool_decide _); [reflexivity|].
      destruct (validate_date_accepted_if now None data s e Hs He Hlt)
        as [data' H]; [auto|].
      rewrite H. f_equal. now apply (validate_date_creation now data).
Qed.

(** At instant 100 user 1 creates a published event from 200 to 300. *)
Lemma before_post_acceptance_witness :
  before_post 100 Sample.db {["user_id" := VInt 1]}
    (Data.mk (Val "Summit") (Val "published") (Val 200) (Val 300)
             Absent Absent)
  = Ok (Data.mk (Val "Summit") (Val "published") (Val 200) (Val 300)
                Absent Absent).
Proof.
  refine (proj2 (before_post_acceptance 100 Sample.db
                   {["user_id" := VInt 1]}
                   (Data.mk (Val "Summit") (Val "published") (Val 200)
                            (Val 300) Absent Absent))
                (VInt 1) Sample.alice _ _ _ _ _).
  - reflexivity.
  - reflexivity.
  - reflexivity.
  - discriminate.
  - right. exists 200, 300. unfold representable. simpl.
    repeat split; lia.
Defined.

(** X6. An update of an event that is not deleted, by a payload that
    carries no [deleted_at], is refused with the starts-at error when a
    date of the payload differs from the stored one (a date left out of
    the payload does), the effective dates are in order, and the
    effective start, the payload's or else the stored one, is not after
    the evaluation instant.  So an event that has started cannot be
    edited by a payload that leaves its dates out. *)
Theorem started_event_update_refused (now : Z) (rq : Request)
  (event : Event.t) (data : Data.t) (w : World) (s e : Z) :
  Event.deleted_at event = None ->
  get (Data.deleted_at data) = None ->
  get (Data.starts_at data) <> Event.starts_at event
  \/ get (Data.ends_at data) <> Event.ends_at event ->
  effective_starts_at (Some event) data = Some s ->
  effective_ends_at (Some event) data = Some e ->
  s < e -> s <= now ->
  before_update_object now rq event data w = Raise starts_at_error.
Proof.
  intros Hlive Hkeep Hchanged Hs He Hlt Hpast.
  unfold before_update_object.
  rewrite (date_step_changed now event data Hchanged).
  rewrite (validate_date_dates now (Some event) data s e Hs He).
  destruct (Z.geb_spec s e); [lia|]. destruct (Z.leb_spec s now); [|lia].
  unfold is_restore, is_soft_delete. now rewrite Hlive, Hkeep.
Qed.

(** At instant 100, the name alone of an event that started at 10 is
    changed. *)
Lemma started_event_update_refused_witness :
  before_update_object 100 Sample.alice_get
    (Sample.event 7 "published" 10 200 None 0)
    (Data.mk (Val "Summit 2") Absent Absent Absent Absent Absent)
    Sample.empty_world
  = Raise starts_at_error.
Proof.
  apply (started_event_update_refused 100 Sample.alice_get
           (Sample.event 7 "published" 10 200 None 0)
           (Data.mk (Val "Summit 2") Absent Absent Absent Absent Absent)
           Sample.empty_world 10 200);
    [reflexivity | reflexivity | left; discriminate | reflexivity
    | reflexivity | lia | lia].
Defined.

(** X7. An update whose payload repeats both stored dates is accepted
    without any check of the dates, the event and the payload returned
    as they were, when it does not publish a draft, the event has no
    deletion mark or the payload carries a [deleted_at], and it is made
    without admin access or without a change of [deleted_at]. *)
Theorem unchanged_dates_unchecked (now : Z) (rq : Request)
  (event : Event.t) (data : Data.t) (w : World) :
  get (Data.starts_at data) = Event.starts_at event ->
  get (Data.ends_at data) = Event.ends_at event ->
  Event.state event <> Some "draft"
  \/ get (Data.state data) <> Some "published" ->
  Event.deleted_at event = None \/ get (Data.deleted_at data) <> None ->
  is_admin rq = false
  \/ get (Data.deleted_at data) = Event.deleted_at event ->
  exists w', before_update_object now rq event data w = Ok (event, data, w').
Proof.
  intros Hs He Hpub Hrestore Hadmin.
  unfold before_update_object, date_step, deletion_step, dt_eqb, str_eqb.
  rewrite Hs, He, !bool_decide_eq_true_2 by reflexivity. simpl.
  assert (Hp : bool_decide (Event.state event = Some "draft")
               && bool_decide (get (Data.state data) = Some "published")
               = false).
  { apply andb_false_iff.
    destruct Hpub as [H|H]; [left|right]; now apply bool_decide_eq_false_2. }
  assert (Hr : dt_truthy (Event.deleted_at event)
               && negb (dt_truthy (get (Data.deleted_at data))) = false).
  { destruct Hrestore as [-> | H]; [reflexivity|].
    destruct (get (Data.deleted_at data)); [|contradiction].
    apply andb_false_r. }
  assert (Ha : is_admin rq
               && negb (bool_decide (get (Data.deleted_at data)
                                     = Event.deleted_at event)) = false).
  { destruct Hadmin as [-> | H]; [reflexivity|].
    rewrite (bool_decide_eq_true_2 _ H). apply andb_false_r. }
  rewrite Hp, Hr. simpl. rewrite Ha. simpl. eauto.
Qed.

(** At instant 100, an event that started at 10 and ended at 5 is renamed
    with both dates repeated. *)
Lemma unchanged_dates_unchecked_witness :
  exists w',
    before_update_object 100 Sample.alice_get
      (Sample.event 7 "published" 10 5 None 0)
      (Data.mk (Val "Summit 2") Absent (Val 10) (Val 5) Absent Absent)
      Sample.empty_world
    = Ok (Sample.event 7 "published" 10 5 None 0,
          Data.mk (Val "Summit 2") Absent (Val 10) (Val 5) Absent Absent, w').
Proof.
  apply (unchanged_dates_unchecked 100 Sample.alice_get
           (Sample.event 7 "published" 10 5 None 0)
           (Data.mk (Val "Summit 2") Absent (Val 10) (Val 5) Absent Absent)
           Sample.empty_world);
    [reflexivity | reflexivity | left; discriminate | left; reflexivity
    | left; reflexivity].
Defined.

(** The payloads [validate_date] returns, by case. *)
Lemma validate_date_ok_cases now event data data' :
  validate_date now event data = Ok data' ->
  exists s e,
    effective_starts_at event data = Some s
    /\ effective_ends_at event data = Some e
    /\ s < e
    /\ ((now < s /\ data' = fill_dates event data)
        \/ (s <= now /\ is_restore event data = true
            /\ data' = Data.set_state (Val "draft") (fill_dates event data))
        \/ (s <= now /\ is_soft_delete event data = true
            /\ data' = fill_dates event data)).
Proof.
  intros H.
  destruct (effective_starts_at event data) as [s|] eqn:Hs;
    [|rewrite validate_date_missing in H by auto; discriminate].
  destruct (effective_ends_at event data) as [e|] eqn:He;
    [|rewrite validate_date_missing in H by auto; discriminate].
  rewrite (validate_date_dates now event data s e Hs He) in H.
  exists s, e.
  destruct (Z.geb_spec s e) as [|Hlt]; [discriminate|].
  destruct (Z.leb_spec s now) as [Hle|Hgt].
  - destruct (is_restore event data);
      [|destruct (is_soft_delete event data); [|discriminate]];
      injection H as <-; intuition.
  - injection H as <-. intuition.
Qed.

Lemma fill_dates_frame event data :
  Data.name (fill_dates event data) = Data.name data
  /\ Data.state (fill_dates event data) = Data.state data
  /\ Data.original_image_url (fill_dates event data)
     = Data.original_image_url data.
Proof.
  unfold fill_dates. destruct event as [ev|]; [|done].
  destruct (contains (Data.starts_at data)),
           (contains (Data.ends_at _)); done.
Qed.

(** The date step of an update leaves the name and the image URL of the
    payload alone. *)
Lemma date_step_frame now event data data' :
  date_step now event data = Ok data' ->
  Data.name data' = Data.name data
  /\ Data.original_image_url data' = Data.original_image_url data.
Proof.
  unfold date_step. destruct (_ || _ || _); [|now intros [= <-]].
  intros H. apply validate_date_ok_cases in H as (s & e & _ & _ & _ & H).
  destruct (fill_dates_frame (Some event) data) as (Hn & _ & Hu).
  destruct H as [[_ ->]|[(_ & _ & ->)|(_ & _ & ->)]]; simpl; auto.
Qed.

(** X8. What an accepted update changes.  The event leaves
    [before_update_object] as it entered, except that with admin access
    its [deleted_at] is the payload's; without admin access it is never
    altered.  No export job is recorded and nothing is saved; one
    image-resizing task is queued when the payload carries a non-empty
    image URL different from the stored one, and no task otherwise. *)
Theorem before_update_object_effects (now : Z) (rq : Request)
  (event event' : Event.t) (data data' : Data.t) (w w' : World) :
  before_update_object now rq event data w = Ok (event', data', w') ->
  (event' = event
   \/ (is_admin rq = true
       /\ event' = Event.set_deleted_at (get (Data.deleted_at data)) event))
  /\ (is_admin rq = false -> event' = event)
  /\ export_jobs w' = export_jobs w
  /\ session w' = session w
  /\ custom_forms w' = custom_forms w
  /\ (forall url,
        get (Data.original_image_url data) = Some url ->
        url <> "" -> Some url <> Event.original_image_url event ->
        queue w' = (queue w ++ [ (length (queue w),
                                  resize_event_images_task (Event.id event)
                                                           url) ])%list)
  /\ (str_truthy (get (Data.original_image_url data)) = false
      \/ get (Data.original_image_url data) = Event.original_image_url event ->
      queue w' = queue w).
Proof.
  unfold before_update_object.
  destruct (date_step now event data) as [d|] eqn:Hd; [|discriminate].
  simpl. destruct (deletion_step rq event d) as [ev|] eqn:Hdel;
    [|discriminate]. simpl.
  destruct (date_step_frame now event data d Hd) as [_ Hurl].
  pose proof (date_step_keeps_deleted_at now event data d Hd) as Hkeep.
  rewrite Hurl. intros [= <- <- <-].
  assert (Hev : (ev = event
                 \/ (is_admin rq = true
                     /\ ev = Event.set_deleted_at
                               (get (Data.deleted_at data)) event))
                /\ (is_admin rq = false -> ev = event)
                /\ Event.original_image_url ev
                   = Event.original_image_url event
                /\ Event.id ev = Event.id event).
  { unfold deletion_step in Hdel. rewrite Hkeep in Hdel.
    destruct (is_admin rq); simpl in Hdel;
      [|injection Hdel as <-; intuition].
    destruct (negb (dt_eqb _ _)); [|injection Hdel as <-; intuition].
    destruct (_ && _); [discriminate|]. injection Hdel as <-.
    intuition discriminate. }
  destruct Hev as (Hev1 & Hev2 & Hevu & Hevi).
  unfold start_image_resizing_tasks, delay, str_eqb. simpl.
  rewrite Hevu, Hevi.
  split; [exact Hev1|]. split; [exact Hev2|].
  destruct (str_truthy (get (Data.original_image_url data))) eqn:Ht;
    [destruct (bool_decide_reflect
                 (get (Data.original_image_url data)
                  = Event.original_image_url event)) as [Heq|Hne]|];
    simpl; repeat split; auto.
  - intros url Hu _ Hdiff. congruence.
  - intros url Hu _ _. now rewrite Hu.
  - intros [H|H]; [discriminate|contradiction].
  - intros url Hu Hne _. rewrite Hu in Ht. simpl in Ht.
    apply negb_false_iff, String.eqb_eq in Ht. contradiction.
Qed.

(** An admin restores event 7 and gives it a new cover image. *)
Lemma before_update_object_effects_witness :
  Event.set_deleted_at None (Sample.event 7 "draft" 200 300 (Some 5) 0)
  = Sample.event 7 "draft" 200 300 (Some 5) 0
  \/ (is_admin Sample.admin_patch = true
      /\ Event.set_deleted_at None (Sample.event 7 "draft" 200 300 (Some 5) 0)
         = Event.set_deleted_at None
             (Sample.event 7 "draft" 200 300 (Some 5) 0)).
Proof.
  refine (proj1 (before_update_object_effects 100 Sample.admin_patch
                   (Sample.event 7 "draft" 200 300 (Some 5) 0)
                   (Event.set_deleted_at None
                      (Sample.event 7 "draft" 200 300 (Some 5) 0))
                   (Data.mk Absent Absent Absent Absent Null
                            (Val "https://example.org/new.png"))
                   (Data.mk Absent Absent (Val 200) (Val 300) Null
                            (Val "https://example.org/new.png"))
                   Sample.empty_world
                   (mkWorld [(0%nat, resize_event_images_task 7
                                       "https://example.org/new.png")]
                            [] [] []) _)).
  vm_compute. reflexivity.
Defined.

(** The date step is [validate_date] when the update clears a deletion
    mark, and when it publishes a draft. *)
Lemma date_step_restore now event data t :
  Event.deleted_at event = Some t ->
  get (Data.deleted_at data) = None ->
  date_step now event data = validate_date now (Some event) data.
Proof.
  intros Hdel Hclear. unfold date_step. rewrite Hdel, Hclear. simpl.
  now rewrite orb_true_r.
Qed.

Lemma date_step_publish now event data :
  Event.state event = Some "draft" ->
  get (Data.state data) = Some "published" ->
  date_step now event data = validate_date now (Some event) data.
Proof.
  intros Hdraft Hpub. unfold date_step, str_eqb. rewrite Hdraft, Hpub.
  rewrite !bool_decide_eq_true_2 by reflexivity. simpl.
  now rewrite orb_true_r.
Qed.

(** X9. An update of an event with a deletion mark, by a payload that
    carries no [deleted_at], is always date-checked: it is accepted only
    with both effective dates, in order; the payload leaves with state
    'draft' when the effective start is not after the evaluation
    instant, and with the state it came with when it is, both instants
    being before the year 2242. *)
Theorem restore_revalidated (now : Z) (rq : Request)
  (event event' : Event.t) (data data' : Data.t) (w w' : World) (t : Z) :
  Event.deleted_at event = Some t ->
  get (Data.deleted_at data) = None ->
  before_update_object now rq event data w = Ok (event', data', w') ->
  exists s e,
    effective_starts_at (Some event) data = Some s
    /\ effective_ends_at (Some event) data = Some e
    /\ s < e
    /\ (s <= now -> Data.state data' = Val "draft")
    /\ (representable now -> representable s -> now < s ->
        Data.state data' = Data.state data).
Proof.
  intros Hdel Hclear H.
  apply before_update_object_inv in H as [Hd _].
  rewrite (date_step_restore now event data t Hdel Hclear) in Hd.
  apply validate_date_ok_cases in Hd as (s & e & Hs & He & Hlt & Hd).
  exists s, e. repeat split; try assumption.
  - intros Hpast.
    destruct Hd as [[Hgt _]|[(_ & _ & ->)|(_ & Hsoft & _)]];
      [lia|reflexivity|].
    unfold is_soft_delete in Hsoft. rewrite Hdel in Hsoft. discriminate.
  - intros _ _ Hfuture.
    destruct Hd as [[_ ->]|[(Hle & _)|(Hle & _)]]; [|lia|lia].
    apply fill_dates_frame.
Qed.

(** At instant 100 an admin restores, asking for 'published', an event
    that started at 10. *)
Lemma restore_revalidated_witness :
  exists s e,
    Some 10 = Some s /\ Some 20 = Some e /\ s < e
    /\ (s <= 100 -> Val "draft" = Val "draft")
    /\ (representable 100 -> representable s -> 100 < s ->
        Val "draft" = Val "published").
Proof.
  apply (restore_revalidated 100 Sample.admin_patch
           (Sample.event 1 "published" 10 20 (Some 5) 0)
           (Event.set_deleted_at None
              (Sample.event 1 "published" 10 20 (Some 5) 0))
           (Data.mk Absent (Val "published") Absent Absent Null Absent)
           (Data.mk Absent (Val "draft") (Val 10) (Val 20) Null Absent)
           Sample.empty_world Sample.empty_world 5);
    [reflexivity | reflexivity | vm_compute; reflexivity].
Defined.

(** X10. An update that publishes a draft which is not deleted, without
    deleting it, is accepted only if the effective start is strictly
    after the evaluation instant and strictly before the effective end;
    the payload then keeps the state 'published'. *)
Theorem publish_needs_future_start (now : Z) (rq : Request)
  (event event' : Event.t) (data data' : Data.t) (w w' : World) :
  Event.state event = Some "draft" ->
  get (Data.state data) = Some "published" ->
  Event.deleted_at event = None ->
  get (Data.deleted_at data) = None ->
  before_update_object now rq event data w = Ok (event', data', w') ->
  exists s e,
    effective_starts_at (Some event) data = Some s
    /\ effective_ends_at (Some event) data = Some e
    /\ now < s /\ s < e
    /\ get (Data.state data') = Some "published".
Proof.
  intros Hdraft Hpub Hlive Hkeep H.
  apply before_update_object_inv in H as [Hd _].
  rewrite (date_step_publish now event data Hdraft Hpub) in Hd.
  apply validate_date_ok_cases in Hd as (s & e & Hs & He & Hlt & Hd).
  exists s, e.
  destruct Hd as [[Hgt ->]|[(_ & Hr & _)|(_ & Hsoft & _)]].
  - repeat split; try assumption.
    destruct (fill_dates_frame (Some event) data) as (_ & -> & _).
    exact Hpub.
  - unfold is_restore in Hr. rewrite Hlive in Hr. discriminate.
  - unfold is_soft_delete in Hsoft. rewrite Hkeep in Hsoft. simpl in Hsoft.
    now rewrite andb_false_r in Hsoft.
Qed.

(** At instant 100 user 1 publishes the draft 9, which starts at 200. *)
Lemma publish_needs_future_start_witness :
  exists s e,
    Some 200 = Some s /\ Some 300 = Some e /\ 100 < s /\ s < e
    /\ Some "published" = Some "published".
Proof.
  apply (publish_needs_future_start 100 Sample.alice_get
           (Sample.event 9 "draft" 200 300 None 0)
           (Sample.event 9 "draft" 200 300 None 0)
           (Data.mk (Val "Summit") (Val "published") Absent Absent Absent
                    Absent)
           (Data.mk (Val "Summit") (Val "published") (Val 200) (Val 300)
                    Absent Absent)
           Sample.empty_world Sample.empty_world);
    [reflexivity | reflexivity | reflexivity | reflexivity
    | vm_compute; reflexivity].
Defined.

(** ** More on the side-effect dispatcher *)

(** What [start_export_tasks] adds to the world. *)
Lemma start_export_tasks_world event w :
  let n := length (queue w) in
  let id := Event.id event in
  queue (start_export_tasks event w)
  = (queue w ++ [ (n, export_xcal_task id false);
                  (S n, export_ical_task id false);
                  (S (S n), export_pentabarf_task id false) ])%list
  /\ export_jobs (start_export_tasks event w)
     = (export_jobs w ++ [ (n, id); (S n, id); (S (S n), id) ])%list
  /\ session (start_export_tasks event w) = session w
  /\ custom_forms (start_export_tasks event w) = custom_forms w.
Proof.
  unfold start_export_tasks, delay, create_export_job. simpl.
  rewrite !length_app. simpl. rewrite !Nat.add_1_r, <- !app_assoc.
  repeat split.
Qed.

(** X11. Every successful [after_create_object] saves the role assignment
    that makes the creating user owner of the event and the accepted
    owner invitation for the user's email, in that order and nothing
    else; creates the attendee forms of the event; and returns the event
    as it was.  If the event is published and scheduled it queues the
    xCal, iCal and Pentabarf export tasks of the event, in that order,
    and records each handle with the event id; otherwise it queues and
    records no export.  After them it queues the resizing of the
    payload's image when the payload has a non-empty image URL, and
    nothing when it has none. *)
Theorem after_create_object_effects (db : DB) (event event' : Event.t)
  (data : Data.t) (view_kwargs : gmap string val) (w w' : World) :
  after_create_object db event data view_kwargs w = Ok (event', w') ->
  let n := length (queue w) in
  let id := Event.id event in
  let exports :=
    if published_and_scheduled event
    then [ (n, export_xcal_task id false); (S n, export_ical_task id false);
           (S (S n), export_pentabarf_task id false) ]
    else [] in
  let records :=
    if published_and_scheduled event
    then [ (n, id); (S n, id); (S (S n), id) ] else [] in
  event' = event
  /\ (exists uid user title_name,
        view_kwargs !! "user_id" = Some uid
        /\ users db uid = Some user
        /\ owner_role db = Some title_name
        /\ session w'
           = (session w ++ [ SavedUsersEventsRoles user event OWNER;
                             SavedRoleInvite (User.email user) title_name
                                             event OWNER "accepted" ])%list)
  /\ custom_forms w' = (custom_forms w ++ [Event.id event])%list
  /\ export_jobs w' = (export_jobs w ++ records)%list
  /\ (forall url,
        get (Data.original_image_url data) = Some url -> url <> "" ->
        queue w'
        = (queue w ++ exports
           ++ [ ((n + length exports)%nat,
                 resize_event_images_task id url) ])%list)
  /\ (get (Data.original_image_url data) = None
      \/ get (Data.original_image_url data) = Some "" ->
      queue w' = (queue w ++ exports)%list).
Proof.
  unfold after_create_object, dict_index.
  destruct (view_kwargs !! "user_id") as [uid|] eqn:Huid; [|discriminate].
  simpl. destruct (users db uid) as [user|] eqn:Hu; [|discriminate].
  destruct (owner_role db) as [title_name|] eqn:Hr; [|discriminate].
  intros [= <- <-]. split; [reflexivity|].
  destruct (start_export_tasks_world event
              (create_custom_forms_for_attendees event
                 (save_to_db (SavedRoleInvite (User.email user) title_name
                                              event OWNER "accepted")
                    (save_to_db (SavedUsersEventsRoles user event OWNER) w))))
    as (Hq & Hj & Hs & Hc).
  cbv zeta in Hq, Hj. simpl in Hq, Hj.
  assert (Htruthy : forall url,
            get (Data.original_image_url data) = Some url -> url <> "" ->
            str_truthy (get (Data.original_image_url data)) = true).
  { intros url -> Hne. simpl. now apply negb_true_iff, String.eqb_neq. }
  assert (Hfalsy : get (Data.original_image_url data) = None
                   \/ get (Data.original_image_url data) = Some "" ->
                   str_truthy (get (Data.original_image_url data)) = false).
  { now intros [-> | ->]. }
  split; [exists uid, user, title_name; repeat split; try assumption|].
  - destruct (published_and_scheduled event),
             (str_truthy (get (Data.original_image_url data)));
      unfold start_image_resizing_tasks, delay; simpl; rewrite ?Hs; simpl;
      now rewrite <- app_assoc.
  - split; [|split; [|split]].
    + destruct (published_and_scheduled event),
               (str_truthy (get (Data.original_image_url data)));
        unfold start_image_resizing_tasks, delay; simpl; now rewrite ?Hc.
    + destruct (published_and_scheduled event),
               (str_truthy (get (Data.original_image_url data)));
        unfold start_image_resizing_tasks, delay; simpl; rewrite ?Hj;
        now rewrite ?app_nil_r.
    + intros url Hurl Hne. rewrite (Htruthy url Hurl Hne), Hurl.
      unfold start_image_resizing_tasks, delay. simpl.
      destruct (published_and_scheduled event); simpl.
      * rewrite Hq, length_app. simpl. rewrite <- app_assoc. simpl.
        now rewrite Nat.add_comm.
      * now rewrite Nat.add_0_r.
    + intros Hnone. rewrite (Hfalsy Hnone).
      destruct (published_and_scheduled event); simpl.
      * exact Hq.
      * now rewrite app_nil_r.
Qed.

(** User 1 creates the draft 9 with a cover image: the resizing is the
    one task queued. *)
Lemma after_create_object_effects_witness :
  [ (0%nat, resize_event_images_task 9 "https://example.org/cover.png") ]
  = ([] ++ []
     ++ [ ((0 + 0)%nat,
           resize_event_images_task 9 "https://example.org/cover.png") ])%list.
Proof.
  refine (proj1 (proj2 (proj2 (proj2 (proj2
            (after_create_object_effects Sample.db
               (Sample.event 9 "draft" 200 300 None 0)
               (Sample.event 9 "draft" 200 300 None 0)
               (Data.mk (Val "Summit") (Val "draft") Absent Absent Absent
                        (Val "https://example.org/cover.png"))
               {["user_id" := VInt 1]} Sample.empty_world
               (mkWorld
                  [ (0%nat, resize_event_images_task 9
                              "https://example.org/cover.png") ]
                  []
                  [ SavedUsersEventsRoles Sample.alice
                      (Sample.event 9 "draft" 200 300 None 0) OWNER;
                    SavedRoleInvite "alice@example.org" "Owner"
                      (Sample.event 9 "draft" 200 300 None 0) OWNER
                      "accepted" ]
                  [9]) _)))))
            "https://example.org/cover.png" _ _).
  - vm_compute. reflexivity.
  - reflexivity.
  - discriminate.
Defined.

(** X12. [after_update_object] does one of two things and never both.  On
    an event that is published with a [schedule_published_on] it queues
    the three export tasks with their records, saves nothing and returns
    the event as it was.  On any other event it queues and records
    nothing, returns the event with its three export URLs null and every
    other column as it was, and saves that event; the event returned is
    then still not published and scheduled, and a second run returns the
    same event. *)
Theorem after_update_object_effects (event event' : Event.t)
  (w w' : World) :
  after_update_object event w = (event', w') ->
  (Event.state event = Some "published"
   /\ Event.schedule_published_on event <> None ->
   event' = event
   /\ session w' = session w
   /\ queue w'
      = (queue w
         ++ [ (length (queue w), export_xcal_task (Event.id event) false);
              (S (length (queue w)), export_ical_task (Event.id event) false);
              (S (S (length (queue w))),
               export_pentabarf_task (Event.id event) false) ])%list
   /\ export_jobs w'
      = (export_jobs w
         ++ [ (length (queue w), Event.id event);
              (S (length (queue w)), Event.id event);
              (S (S (length (queue w))), Event.id event) ])%list)
  /\ (Event.state event <> Some "published"
      \/ Event.schedule_published_on event = None ->
      queue w' = queue w
      /\ export_jobs w' = export_jobs w
      /\ session w' = (session w ++ [SavedEvent event'])%list
      /\ Event.ical_url event' = None
      /\ Event.xcal_url event' = None
      /\ Event.pentabarf_url event' = None
      /\ event' = Event.clear_urls event
      /\ published_and_scheduled event' = false
      /\ fst (after_update_object event' w') = event').
Proof.
  unfold after_update_object.
  assert (Hps : published_and_scheduled event = true
                <-> Event.state event = Some "published"
                    /\ Event.schedule_published_on event <> None).
  { unfold published_and_scheduled, str_eqb.
    rewrite andb_true_iff, bool_decide_eq_true.
    destruct (Event.schedule_published_on event); simpl;
      intuition congruence. }
  destruct (published_and_scheduled event) eqn:Hp; intros [= <- <-].
  - destruct (start_export_tasks_world event w) as (Hq & Hj & Hs & _).
    split; [intros _; repeat split; assumption|].
    intros H. apply proj1 in Hps. specialize (Hps eq_refl).
    destruct Hps as [H1 H2]. destruct H as [H|H]; contradiction.
  - split.
    + intros H. apply Hps in H. discriminate.
    + intros _. unfold clear_export_urls. simpl.
      assert (Hp' : published_and_scheduled (Event.clear_urls event) = false)
        by exact Hp.
      rewrite Hp'. repeat split.
Qed.

(** The draft 9 is updated: its export URLs are cleared and it is
    saved. *)
Lemma after_update_object_effects_witness :
  queue (snd (after_update_object (Sample.event 9 "draft" 200 300 None 0)
                                  Sample.empty_world))
  = queue Sample.empty_world.
Proof.
  refine (proj1 (proj2 (after_update_object_effects
                          (Sample.event 9 "draft" 200 300 None 0)
                          (fst (after_update_object
                                  (Sample.event 9 "draft" 200 300 None 0)
                                  Sample.empty_world))
                          Sample.empty_world
                          (snd (after_update_object
                                  (Sample.event 9 "draft" 200 300 None 0)
                                  Sample.empty_world)) _) _)).
  - reflexivity.
  - left. discriminate.
Defined.

(** ** Export jobs and the task queue *)

Lemma tracked_queue_grows w w' :
  tracked w ->
  export_jobs w' = export_jobs w ->
  (forall x, x ∈ queue w -> x ∈ queue w') ->
  tracked w'.
Proof.
  intros Ht Hj Hq h id Hin. rewrite Hj in Hin.
  destruct (Ht h id Hin) as (t & Hqt & He). exists t. auto.
Qed.

Lemma tracked_start_export_tasks event w :
  tracked w -> tracked (start_export_tasks event w).
Proof.
  intros Ht h id.
  destruct (start_export_tasks_world event w) as (Hq & Hj & _).
  cbv zeta in Hq, Hj. rewrite Hq, Hj, elem_of_app.
  intros [Hin|Hin].
  - destruct (Ht h id Hin) as (t & Hqt & He).
    exists t. rewrite elem_of_app. auto.
  - rewrite !elem_of_cons, elem_of_nil in Hin.
    destruct Hin as [[= -> ->]|[[= -> ->]|[[= -> ->]|[]]]];
      [ exists (export_xcal_task (Event.id event) false)
      | exists (export_ical_task (Event.id event) false)
      | exists (export_pentabarf_task (Event.id event) false) ];
      (split; [|reflexivity]);
      rewrite elem_of_app, !elem_of_cons; auto 6.
Qed.

Lemma tracked_start_image_resizing_tasks event url w :
  tracked w -> tracked (start_image_resizing_tasks event url w).
Proof.
  intros Ht. apply (tracked_queue_grows w); [assumption|reflexivity|].
  intros x Hx. unfold start_image_resizing_tasks, delay. simpl.
  rewrite elem_of_app. auto.
Qed.

(** X13. The hooks keep the export-job records in step with the task
    queue: if every record pairs the handle of a queued export task with
    the event it exports, this is still so after [after_create_object],
    after [before_update_object] and after [after_update_object]. *)
Theorem hooks_keep_tracked (w : World) :
  tracked w ->
  (forall db event data view_kwargs event' w',
     after_create_object db event data view_kwargs w = Ok (event', w') ->
     tracked w')
  /\ (forall now rq event data event' data' w',
        before_update_object now rq event data w = Ok (event', data', w') ->
        tracked w')
  /\ (forall event, tracked (snd (after_update_object event w))).
Proof.
  intros Ht. split; [|split].
  - intros db event data view_kwargs event' w'.
    unfold after_create_object, dict_index.
    destruct (view_kwargs !! "user_id") as [uid|]; [|discriminate]. simpl.
    destruct (users db uid) as [user|]; [|discriminate].
    destruct (owner_role db) as [title_name|]; [|discriminate].
    intros [= _ <-].
    assert (H0 : tracked
              (create_custom_forms_for_attendees event
                 (save_to_db (SavedRoleInvite (User.email user) title_name
                                event OWNER "accepted")
                    (save_to_db (SavedUsersEventsRoles user event OWNER) w)))).
    { apply (tracked_queue_grows w); auto. }
    destruct (published_and_scheduled event);
      destruct (str_truthy (get (Data.original_image_url data)));
      auto using tracked_start_export_tasks,
                 tracked_start_image_resizing_tasks.
  - intros now rq event data event' data' w'. unfold before_update_object.
    destruct (date_step now event data) as [d|]; [|discriminate]. simpl.
    destruct (deletion_step rq event d) as [ev|]; [|discriminate]. simpl.
    intros [= _ _ <-].
    destruct (_ && _); auto using tracked_start_image_resizing_tasks.
  - intros event. unfold after_update_object.
    destruct (published_and_scheduled event); simpl.
    + now apply tracked_start_export_tasks.
    + apply (tracked_queue_grows w); auto.
Qed.

(** The empty world, after the update of event 5, published and
    scheduled. *)
Lemma hooks_keep_tracked_witness :
  tracked (snd (after_update_object Sample.scheduled Sample.empty_world)).
Proof.
  refine (proj2 (proj2 (hooks_keep_tracked Sample.empty_world _))
                Sample.scheduled).
  intros h id Hin. simpl in Hin. now apply elem_of_nil in Hin.
Defined.

(** ** More on the owner resolver *)

Section ResolverMore.

Variable db : DB.

Lemma run_branch_keeps b (vk vk' : gmap string val) k :
  run_branch db b vk = Ok vk' -> k <> "id" -> vk' !! k = vk !! k.
Proof.
  unfold run_branch. intros H Hk.
  destruct (test (guard b) _); [|now injection H as <-].
  destruct (fetch_row db b vk) as [r|]; [|discriminate]. simpl in H.
  destruct (test (owned b) _);
    [|destruct (has_else b)]; injection H as <-;
    try reflexivity; now apply lookup_insert_ne.
Qed.

Lemma run_branches_keeps bs (vk vk' : gmap string val) k :
  run_branches db bs vk = Ok vk' -> k <> "id" -> vk' !! k = vk !! k.
Proof.
  revert vk. induction bs as [|b bs IH]; intros vk H Hk.
  - now injection H as <-.
  - simpl in H. destruct (run_branch db b vk) as [vk1|] eqn:Hb;
      [|discriminate].
    simpl in H. rewrite (IH vk1 H Hk). now apply (run_branch_keeps b).
Qed.

Lemma run_identifier_keeps (vk vk' : gmap string val) k :
  run_identifier db vk = Ok vk' -> k <> "id" -> vk' !! k = vk !! k.
Proof.
  unfold run_identifier. intros H Hk.
  destruct (truthy _); [|now injection H as <-].
  destruct (safe_query_kwargs _ _ _ _ _); [|discriminate].
  injection H as <-. now apply lookup_insert_ne.
Qed.

Lemma run_branches_app bs1 bs2 (vk : gmap string val) :
  run_branches db (bs1 ++ bs2) vk
  = run_branches db bs1 vk ≫= run_branches db bs2.
Proof.
  revert vk. induction bs1 as [|b bs1 IH]; intros vk; [reflexivity|].
  simpl. destruct (run_branch db b vk) as [vk1|]; [|reflexivity].
  simpl. apply IH.
Qed.

(** Blocks whose guards do not fire leave [view_kwargs] alone. *)
Lemma run_branches_idle bs (vk : gmap string val) :
  (forall b, b ∈ bs -> test (guard b) (dict_get vk (key b)) = false) ->
  run_branches db bs vk = Ok vk.
Proof.
  induction bs as [|b bs IH]; intros H; [reflexivity|].
  simpl. unfold run_branch at 1. rewrite (H b) by now left. simpl.
  apply IH. intros b' Hb'. apply H. now right.
Qed.

(** No block of the table reads ['id'], in its guard or for its fetch. *)
Lemma branches_ignore_id :
  Forall (fun b => key b <> "id" /\ arg b <> "id") branches.
Proof. unfold branches. repeat constructor; discriminate. Qed.

Lemma dict_get_keeps (vk vk' : gmap string val) k :
  vk' !! k = vk !! k -> dict_get vk' k = dict_get vk k.
Proof. unfold dict_get. now intros ->. Qed.

(** The guard of a block and the row it fetches depend on [view_kwargs]
    only outside ['id']. *)
Lemma run_branch_agree b (vk1 vk2 : gmap string val) :
  b ∈ branches ->
  (forall k, k <> "id" -> vk1 !! k = vk2 !! k) ->
  test (guard b) (dict_get vk1 (key b)) = test (guard b) (dict_get vk2 (key b))
  /\ fetch_row db b vk1 = fetch_row db b vk2.
Proof.
  intros Hin Hagree.
  pose proof branches_ignore_id as H. rewrite Forall_forall in H.
  destruct (H b Hin) as [Hk Ha]. split.
  - now rewrite (dict_get_keeps vk2 vk1 (key b) (Hagree (key b) Hk)).
  - unfold fetch_row, dict_index. now rewrite (Hagree (arg b) Ha).
Qed.

(** After the blocks before [b] have run, [b] and the blocks after it
    run on a dictionary that differs from [view_kwargs] at ['id'] at
    most. *)
Lemma get_id_split pre b post (vk vk' : gmap string val) :
  branches = (pre ++ b :: post)%list ->
  get_id db vk = Ok vk' ->
  exists vk1 vk2,
    (forall k, k <> "id" -> vk1 !! k = vk !! k)
    /\ run_branch db b vk1 = Ok vk2
    /\ run_branches db post vk2 = Ok vk'.
Proof.
  intros Hsplit. unfold get_id. rewrite Hsplit.
  destruct (run_identifier db vk) as [vk0|] eqn:H0; [|discriminate].
  simpl. rewrite run_branches_app.
  destruct (run_branches db pre vk0) as [vk1|] eqn:H1; [|discriminate].
  simpl. destruct (run_branch db b vk1) as [vk2|] eqn:H2; [|discriminate].
  simpl. intros H3. exists vk1, vk2. split; [|split; assumption].
  intros k Hk. rewrite (run_branches_keeps pre vk0 vk1 k H1 Hk).
  now apply run_identifier_keeps.
Qed.

End ResolverMore.

(** The three stages of [get_id] together. *)
Lemma get_id_frame (db : DB) (vk vk' : gmap string val) (k : string) :
  get_id db vk = Ok vk' -> k <> "id" -> vk' !! k = vk !! k.
Proof.
  intros H Hk.
  destruct (get_id_split db [] _ _ vk vk' eq_refl H)
    as (vk1 & vk2 & H1 & H2 & H3).
  rewrite (run_branches_keeps db _ vk2 vk' k H3 Hk).
  rewrite (run_branch_keeps db _ vk1 vk2 k H2 Hk). now apply H1.
Qed.

(** X14. [get_id] writes to ['id'] and to nothing else: every other
    entry of [view_kwargs], present or absent, is as it was. *)
Theorem get_id_keeps_parameters (db : DB) (view_kwargs vk' : gmap string val)
  (k : string) :
  get_id db view_kwargs = Ok vk' ->
  k <> "id" ->
  vk' !! k = view_kwargs !! k.
Proof.
  unfold get_id. intros H Hk.
  destruct (run_identifier db view_kwargs) as [vk0|] eqn:H0; [|discriminate].
  simpl in H. rewrite (run_branches_keeps db branches vk0 vk' k H Hk).
  now apply (run_identifier_keeps db).
Qed.

(** Ticket 1 is resolved; the parameter [ticket_id] is still there. *)
Lemma get_id_keeps_parameters_witness :
  (<["id" := VInt 8]> {["ticket_id" := VInt 1]} : gmap string val)
    !! "ticket_id"
  = ({["ticket_id" := VInt 1]} : gmap string val) !! "ticket_id".
Proof.
  apply (get_id_keeps_parameters Sample.orphans {["ticket_id" := VInt 1]}
           (<["id" := VInt 8]> {["ticket_id" := VInt 1]}) "ticket_id").
  - vm_compute. reflexivity.
  - discriminate.
Defined.

(** X15. When no guard of [get_id] fires, that is when [identifier] and
    the four parameters tested for truth are absent, null, zero or empty
    and the others are absent or null, [get_id] returns [view_kwargs] as
    it is and fetches nothing: no exception is raised whatever the
    database holds. *)
Theorem get_id_idle (db : DB) (view_kwargs : gmap string val) :
  truthy (dict_get view_kwargs "identifier") = false ->
  (forall b, b ∈ branches ->
             test (guard b) (dict_get view_kwargs (key b)) = false) ->
  get_id db view_kwargs = Ok view_kwargs.
Proof.
  intros Hi Hb. unfold get_id, run_identifier. rewrite Hi.
  change (run_branches db branches view_kwargs = Ok view_kwargs).
  now apply run_branches_idle.
Qed.

(** A route to the event 5 with [speaker_id] 0: no speaker is fetched. *)
Lemma get_id_idle_witness :
  get_id Sample.orphans (<["speaker_id" := VInt 0]> {["id" := VInt 5]})
  = Ok (<["speaker_id" := VInt 0]> {["id" := VInt 5]}).
Proof.
  apply (get_id_idle Sample.orphans
           (<["speaker_id" := VInt 0]> {["id" := VInt 5]})).
  - reflexivity.
  - apply Forall_forall. unfold branches. repeat constructor.
Defined.

(** X16. The last block whose guard fires decides, unless it is the
    block on [users_events_role_id], the one without [else]: when
    [get_id] returns, the guard of a block [b] other than that one fires
    and the blocks after [b] in the table are idle, ['id'] is bound to
    the [event_id] of the row [b] fetches if that passes [b]'s test, and
    to [None] otherwise, whatever the earlier blocks had bound it to. *)
Theorem get_id_last_wins (db : DB) (view_kwargs vk' : gmap string val)
  (pre post : list Branch) (b : Branch) :
  branches = (pre ++ b :: post)%list ->
  key b <> "users_events_role_id" ->
  test (guard b) (dict_get view_kwargs (key b)) = true ->
  (forall b', b' ∈ post ->
              test (guard b') (dict_get view_kwargs (key b')) = false) ->
  get_id db view_kwargs = Ok vk' ->
  exists v r,
    view_kwargs !! arg b = Some v
    /\ fetch db (model b) (column b) v = Some r
    /\ vk' !! "id"
       = Some (if test (owned b) (of_column (row_event_id r))
               then of_column (row_event_id r) else VNone).
Proof.
  intros Hsplit Hkey Hguard Hpost H.
  assert (Hin : forall b', b' ∈ b :: post -> b' ∈ branches).
  { intros b' Hb'. rewrite Hsplit, elem_of_app. now right. }
  assert (Helse : has_else b = true).
  { pose proof siblings_assign_none as Hsib. rewrite Forall_forall in Hsib.
    apply Hsib; [apply Hin; now left|exact Hkey]. }
  destruct (get_id_split db pre b post view_kwargs vk' Hsplit H)
    as (vk1 & vk2 & Hagree & Hb & Hrest).
  destruct (run_branch_agree db b vk1 view_kwargs) as [Hg Hf];
    [apply Hin; now left|assumption|].
  assert (Hidle : run_branches db post vk2 = Ok vk2).
  { apply run_branches_idle. intros b' Hb'.
    destruct (run_branch_agree db b' vk2 view_kwargs) as [-> _];
      [apply Hin; now right| |now apply Hpost].
    intros k Hk. rewrite (run_branch_keeps db b vk1 vk2 k Hb Hk).
    now apply Hagree. }
  rewrite Hidle in Hrest. injection Hrest as <-.
  unfold run_branch in Hb. rewrite Hg, Hguard, Hf in Hb.
  unfold fetch_row, dict_index in Hb.
  destruct (view_kwargs !! arg b) as [v|] eqn:Hv; [|discriminate].
  simpl in Hb.
  destruct (fetch db (model b) (column b) v) as [r|] eqn:Hr; [|discriminate].
  simpl in Hb. exists v, r. split; [reflexivity|]. split; [exact Hr|].
  rewrite Helse in Hb.
  destruct (test (owned b) _); injection Hb as <-; apply lookup_insert_eq.
Qed.

(** Ticket 1, of event 8, and the access code 4, of no event: the access
    code stands later in the table and ['id'] is bound to [None]. *)
Lemma get_id_last_wins_witness :
  exists v r,
    (<["ticket_id" := VInt 1]> {["access_code_id" := VInt 4]}
       : gmap string val) !! "access_code_id" = Some v
    /\ fetch Sample.orphans Model.AccessCode col_id v = Some r
    /\ (<["id" := VNone]>
          (<["ticket_id" := VInt 1]> {["access_code_id" := VInt 4]})
          : gmap string val) !! "id"
       = Some (if test NotNone (of_column (row_event_id r))
               then of_column (row_event_id r) else VNone).
Proof.
  apply (get_id_last_wins Sample.orphans
           (<["ticket_id" := VInt 1]> {["access_code_id" := VInt 4]})
           (<["id" := VNone]>
              (<["ticket_id" := VInt 1]> {["access_code_id" := VInt 4]}))
           (take 19 branches) (drop 20 branches)
           (helper_branch "access_code_id" NotNone Model.AccessCode col_id
                          true)).
  - reflexivity.
  - discriminate.
  - reflexivity.
  - apply Forall_forall. simpl. repeat constructor.
  - vm_compute. reflexivity.
Defined.

(** A block whose guard fires cannot be passed when its fetch fails. *)
Lemma get_id_stops_at (db : DB) (vk : gmap string val) (b : Branch)
  (e : error) :
  b ∈ branches ->
  test (guard b) (dict_get vk (key b)) = true ->
  fetch_row db b vk = Raise e ->
  forall vk', get_id db vk <> Ok vk'.
Proof.
  intros Hin Hguard Hfail vk' H.
  destruct (list_elem_of_split _ _ Hin) as (pre & post & Hsplit).
  destruct (get_id_split db pre b post vk vk' Hsplit H)
    as (vk1 & vk2 & Hagree & Hb & _).
  destruct (run_branch_agree db b vk1 vk Hin Hagree) as [Hg Hf].
  unfold run_branch in Hb. rewrite Hg, Hguard, Hf, Hfail in Hb.
  discriminate.
Qed.

(** X17. A block whose guard fires and whose fetch fails makes [get_id]
    fail, wherever it stands in the table: [get_id] never returns when
    the row a present parameter addresses does not exist, nor when a
    block reads a key that is not there. *)
Theorem get_id_block_fails (db : DB) (view_kwargs : gmap string val)
  (b : Branch) (e : error) :
  b ∈ branches ->
  test (guard b) (dict_get view_kwargs (key b)) = true ->
  fetch_row db b view_kwargs = Raise e ->
  forall vk', get_id db view_kwargs <> Ok vk'.
Proof.
  intros Hin Hguard Hfail vk' H.
  destruct (list_elem_of_split _ _ Hin) as (pre & post & Hsplit).
  destruct (get_id_split db pre b post view_kwargs vk' Hsplit H)
    as (vk1 & vk2 & Hagree & Hb & _).
  destruct (run_branch_agree db b vk1 view_kwargs Hin Hagree) as [Hg Hf].
  unfold run_branch in Hb. rewrite Hg, Hguard, Hf, Hfail in Hb.
  discriminate.
Qed.

(** Ticket 2 does not exist. *)
Lemma get_id_block_fails_witness :
  get_id Sample.orphans {["ticket_id" := VInt 2]}
  <> Ok {["ticket_id" := VInt 2]}.
Proof.
  apply (get_id_block_fails Sample.orphans {["ticket_id" := VInt 2]}
           (helper_branch "ticket_id" NotNone Model.Ticket col_id true)
           (ObjectNotFound "ticket_id" "{}: {} not found"
                           [VStr "Ticket"; VInt 2])).
  - apply list_elem_of_In. unfold branches. simpl. tauto.
  - reflexivity.
  - reflexivity.
Defined.

(** X18. The block on [user_id] fetches a discount code by
    [view_kwargs['discount_code_id']]: a request with a [user_id] and no
    [discount_code_id] never gets through [get_id], and with [user_id]
    alone the exception is the [KeyError] on ['discount_code_id']. *)
Theorem get_id_user_id_needs_discount_code (db : DB)
  (view_kwargs : gmap string val) (v : val) :
  view_kwargs !! "user_id" = Some v ->
  v <> VNone ->
  view_kwargs !! "discount_code_id" = None ->
  (forall vk', get_id db view_kwargs <> Ok vk')
  /\ ((forall k, k <> "user_id" -> view_kwargs !! k = None) ->
      get_id db view_kwargs = Raise (KeyError "discount_code_id")).
Proof.
  intros Hv Hnn Hd.
  assert (Hin : direct_branch "user_id" NotNone Model.DiscountCode
                  "discount_code_id" "DiscountCode: {} not found" NotNone
                ∈ branches).
  { apply list_elem_of_In. unfold branches. simpl. tauto. }
  assert (Hguard : is_not_none (dict_get view_kwargs "user_id") = true).
  { unfold dict_get. rewrite Hv. simpl. now destruct v. }
  split.
  - apply (get_id_stops_at db view_kwargs _ (KeyError "discount_code_id")
             Hin Hguard).
    unfold fetch_row, dict_index. simpl. now rewrite Hd.
  - intros Hothers.
    rewrite (get_id_single_key db _ view_kwargs Hin Hothers).
    unfold run_branch, fetch_row, dict_index. simpl.
    now rewrite Hguard, Hd.
Qed.

(** The events of user 1. *)
Lemma get_id_user_id_needs_discount_code_witness :
  get_id Sample.db {["user_id" := VInt 1]}
  = Raise (KeyError "discount_code_id").
Proof.
  refine (proj2 (get_id_user_id_needs_discount_code Sample.db
                   {["user_id" := VInt 1]} (VInt 1) _ _ _) _).
  - reflexivity.
  - discriminate.
  - reflexivity.
  - intros k Hk. now apply lookup_singleton_ne.
Defined.

(** X19. On a request addressed by a truthy [identifier], [get_id] raises
    [ObjectNotFound] on the parameter [identifier] when no event has it,
    and otherwise, no block of the table firing, binds ['id'] to the id
    of that event. *)
Theorem get_id_identifier (db : DB) (view_kwargs : gmap string val)
  (v : val) :
  view_kwargs !! "identifier" = Some v ->
  truthy v = true ->
  (fetch db Model.Event col_identifier v = None ->
   get_id db view_kwargs
   = Raise (ObjectNotFound "identifier" "{}: {} not found"
                           [VStr "Event"; v]))
  /\ (forall event,
        fetch db Model.Event col_identifier v = Some event ->
        (forall b, b ∈ branches ->
                   test (guard b) (dict_get view_kwargs (key b)) = false) ->
        get_id db view_kwargs
        = Ok (<["id" := VInt (row_id event)]> view_kwargs)).
Proof.
  intros Hv Ht.
  assert (Hid : run_identifier db view_kwargs
                = match fetch db Model.Event col_identifier v with
                  | Some event =>
                      Ok (<["id" := VInt (row_id event)]> view_kwargs)
                  | None =>
                      Raise (ObjectNotFound "identifier" "{}: {} not found"
                                            [VStr "Event"; v])
                  end).
  { unfold run_identifier, safe_query_kwargs, safe_query, dict_index,
      dict_get.
    rewrite Hv. simpl. rewrite Ht.
    now destruct (fetch db Model.Event col_identifier v). }
  unfold get_id. rewrite Hid. split.
  - now intros ->.
  - intros event -> Hidle.
    change (run_branches db branches
              (<["id" := VInt (row_id event)]> view_kwargs)
            = Ok (<["id" := VInt (row_id event)]> view_kwargs)).
    apply run_branches_idle. intros b Hb.
    pose proof (branches_ignore_id) as Hno. rewrite Forall_forall in Hno.
    destruct (Hno b Hb) as [Hk _].
    rewrite dict_get_insert_ne by congruence. now apply Hidle.
Qed.

(** No event has the identifier 'fossasia'. *)
Lemma get_id_identifier_witness :
  get_id Sample.orphans {["identifier" := VStr "fossasia"]}
  = Raise (ObjectNotFound "identifier" "{}: {} not found"
                          [VStr "Event"; VStr "fossasia"]).
Proof.
  refine (proj1 (get_id_identifier Sample.orphans
                   {["identifier" := VStr "fossasia"]} (VStr "fossasia")
                   _ _) _); reflexivity.
Defined.

(** ** The hooks around [get_id] *)

Lemma result_bind_ok {A B : Type} (a : A) (f : A -> result B) :
  Ok a ≫= f = f a.
Proof. reflexivity. Qed.

(** A block with the [else], run again on the dictionary it returned,
    returns it unchanged. *)
Lemma run_branch_again (db : DB) (b : Branch) (vk1 vk2 : gmap string val) :
  b ∈ branches ->
  has_else b = true ->
  run_branch db b vk1 = Ok vk2 ->
  run_branch db b vk2 = Ok vk2.
Proof.
  intros Hin Helse H.
  destruct (run_branch_agree db b vk2 vk1 Hin) as [Hg Hf].
  { intros k Hk. now apply (run_branch_keeps db b). }
  unfold run_branch in *. rewrite Hg, Hf.
  destruct (test (guard b) _); [|reflexivity].
  destruct (fetch_row db b vk1) as [r|]; [|discriminate]. simpl in *.
  rewrite Helse in *.
  destruct (test (owned b) _); injection H as <-;
    now rewrite insert_insert_eq.
Qed.

(** The second fetch of [EventDetail.before_get_object] is the block of
    [get_id] on [order_identifier]. *)
Lemma before_get_object_block (db : DB) (vk : gmap string val) :
  EventDetail_before_get_object db vk
  = get_id db vk
    ≫= run_branch db (helper_branch "order_identifier" NotNone Model.Order
                                    col_identifier true).
Proof.
  unfold EventDetail_before_get_object.
  destruct (get_id db vk) as [vk1|]; [|reflexivity]. simpl.
  unfold run_branch, fetch_row, safe_query_kwargs, safe_query. simpl.
  destruct (is_not_none (dict_get vk1 "order_identifier")); [|reflexivity].
  destruct (dict_index vk1 "order_identifier") as [v|]; [|reflexivity].
  simpl. now destruct (fetch db Model.Order col_identifier v).
Qed.

(** X20. [EventDetail.before_get_object] fetches the order once more
    after [get_id].  Without a [feedback_id] this changes nothing: it
    returns, or raises, what [get_id] does.  In any case, when it returns
    on a request with an [order_identifier], ['id'] is bound to the
    [event_id] of that order. *)
Theorem before_get_object_refetch (db : DB) (view_kwargs : gmap string val) :
  (dict_get view_kwargs "feedback_id" = VNone ->
   EventDetail_before_get_object db view_kwargs = get_id db view_kwargs)
  /\ (forall vk' v,
        EventDetail_before_get_object db view_kwargs = Ok vk' ->
        view_kwargs !! "order_identifier" = Some v ->
        v <> VNone ->
        exists order,
          fetch db Model.Order col_identifier v = Some order
          /\ vk' !! "id" = Some (of_column (row_event_id order))).
Proof.
  set (order := helper_branch "order_identifier" NotNone Model.Order
                              col_identifier true).
  set (feedback := helper_branch "feedback_id" NotNone Model.Feedback
                                 col_id true).
  assert (Hsplit : branches = (take 26 branches ++ [order; feedback])%list)
    by reflexivity.
  assert (Horder : order ∈ branches).
  { rewrite Hsplit, elem_of_app. right. now left. }
  rewrite before_get_object_block. fold order. split.
  - intros Hfb. unfold get_id. rewrite Hsplit.
    destruct (run_identifier db view_kwargs) as [vk0|] eqn:H0;
      [|reflexivity].
    rewrite !result_bind_ok, run_branches_app.
    destruct (run_branches db (take 26 branches) vk0) as [vk1|] eqn:H1;
      [|reflexivity].
    rewrite !result_bind_ok.
    change (run_branches db [order; feedback] vk1)
      with (run_branch db order vk1
            ≫= fun vk2 => run_branch db feedback vk2 ≫= Ok).
    destruct (run_branch db order vk1) as [vk2|] eqn:H2;
      [|reflexivity].
    rewrite !result_bind_ok.
    assert (Hidle : run_branch db feedback vk2 = Ok vk2).
    { unfold run_branch.
      replace (dict_get vk2 (key feedback)) with VNone; [reflexivity|].
      rewrite <- Hfb. symmetry. apply dict_get_keeps. simpl.
      rewrite (run_branch_keeps db order vk1 vk2 "feedback_id" H2) by done.
      rewrite (run_branches_keeps db _ vk0 vk1 "feedback_id" H1) by done.
      now apply (run_identifier_keeps db). }
    rewrite Hidle, !result_bind_ok.
    exact (run_branch_again db order vk1 vk2 Horder eq_refl H2).
  - intros vk' v H Hv Hnn.
    destruct (get_id db view_kwargs) as [vk1|] eqn:Hget; [|discriminate].
    simpl in H.
    assert (Hv1 : vk1 !! "order_identifier" = Some v).
    { now rewrite (get_id_frame db view_kwargs vk1 _ Hget). }
    unfold run_branch, fetch_row, dict_get, dict_index in H. simpl in H.
    rewrite Hv1 in H. simpl in H.
    replace (is_not_none v) with true in H by now destruct v.
    destruct (fetch db Model.Order col_identifier v) as [r|];
      [|discriminate].
    simpl in H. exists r. split; [reflexivity|].
    destruct (row_event_id r); simpl in H; injection H as <-;
      apply lookup_insert_eq.
Qed.

(** An order that does not exist: both raise the same exception. *)
Lemma before_get_object_refetch_witness :
  EventDetail_before_get_object Sample.orphans
    {["order_identifier" := VStr "a1b2"]}
  = get_id Sample.orphans {["order_identifier" := VStr "a1b2"]}.
Proof.
  apply (proj1 (before_get_object_refetch Sample.orphans
                  {["order_identifier" := VStr "a1b2"]})).
  reflexivity.
Defined.

(** X21. The full schema is never given to a caller who is not logged in,
    by [EventList.before_get] nor by [EventDetail.before_get].
    [EventDetail.before_get] gives it only to a co-organizer of the event
    [get_id] resolved, and [EventList.before_get] only to an admin or on
    a route of a user.  For a logged-in caller, [EventDetail.before_get]
    raises [KeyError] when [get_id] has bound no ['id']. *)
Theorem schema_selection (rq : Request) (db : DB)
  (kwargs : gmap string val) :
  (is_logged_in rq = false ->
   EventList_before_get rq kwargs = EventSchemaPublic
   /\ forall vk' s, EventDetail_before_get rq db kwargs = Ok (vk', s) ->
                    s = EventSchemaPublic)
  /\ (forall vk',
        EventDetail_before_get rq db kwargs = Ok (vk', EventSchema) ->
        is_logged_in rq = true
        /\ get_id db kwargs = Ok vk'
        /\ exists event_id, vk' !! "id" = Some event_id
                            /\ is_coorganizer rq event_id = true)
  /\ (EventList_before_get rq kwargs = EventSchema ->
      is_logged_in rq = true
      /\ (is_admin rq = true \/ truthy (dict_get kwargs "user_id") = true))
  /\ (is_logged_in rq = true ->
      forall vk', get_id db kwargs = Ok vk' -> vk' !! "id" = None ->
                  EventDetail_before_get rq db kwargs = Raise (KeyError "id")).
Proof.
  unfold EventList_before_get, EventDetail_before_get, dict_index.
  split; [|split; [|split]].
  - intros ->. split; [reflexivity|]. intros vk' s.
    destruct (get_id db kwargs); [|discriminate]. simpl.
    now intros [= _ <-].
  - intros vk'. destruct (get_id db kwargs) as [vk1|]; [|discriminate].
    simpl. destruct (is_logged_in rq); [|discriminate].
    destruct (vk1 !! "id") as [event_id|] eqn:Hid; [|discriminate]. simpl.
    destruct (is_coorganizer rq event_id) eqn:Hco; [|discriminate].
    intros [= <-]. eauto 6.
  - destruct (is_logged_in rq); [|discriminate]. simpl.
    destruct (is_admin rq); simpl; [auto|].
    destruct (truthy _); [auto|discriminate].
  - intros -> vk' -> Hid. simpl. now rewrite Hid.
Qed.

(** An anonymous caller on the route of the events of user 1. *)
Lemma schema_selection_witness :
  EventList_before_get Sample.anonymous_get {["user_id" := VInt 1]}
  = EventSchemaPublic.
Proof.
  apply (proj1 (proj1 (schema_selection Sample.anonymous_get Sample.db
                         {["user_id" := VInt 1]}) eq_refl)).
Defined.

(** ** More on the visibility filter *)

Section ScopingMore.

Variables (rq : Request) (db : DB) (view_kwargs : gmap string val).

(** Among scopings with distinct parameters of which one only is
    present, the scoping blocks do what the block of that one does. *)
Lemma run_role_scopes_only ss k p f q :
  NoDup (map (fun s => fst (fst s)) ss) ->
  (k, p, f) ∈ ss ->
  (forall k', k' ∈ map (fun s => fst (fst s)) ss -> k' <> k ->
              truthy (dict_get view_kwargs k') = false) ->
  run_role_scopes rq db ss view_kwargs q
  = role_scope rq db k p f view_kwargs q.
Proof.
  intros Hnd Hin Hothers. revert q.
  induction ss as [|[[k1 p1] f1] ss IH]; intros q.
  - now apply elem_of_nil in Hin.
  - simpl in Hnd. apply NoDup_cons in Hnd as [Hfresh Hnd].
    apply elem_of_cons in Hin as [Heq|Hin].
    + injection Heq as <- <- <-. simpl.
      destruct (role_scope rq db k p f view_kwargs q) as [q'|];
        [|reflexivity].
      simpl. apply run_role_scopes_skip. intros s Hs. apply Hothers.
      * right. apply list_elem_of_fmap. now exists s.
      * intros Hk. apply Hfresh. rewrite <- Hk.
        apply list_elem_of_fmap. now exists s.
    + assert (Hne : k1 <> k).
      { intros ->. apply Hfresh.
        apply list_elem_of_fmap. now exists (k, p, f). }
      simpl. rewrite role_scope_skip.
      * simpl. apply IH; [assumption..|].
        intros k' Hk'. apply Hothers. now right.
      * apply Hothers; [now left|assumption].
Qed.

(** On a request that is not a GET no scoping block does anything. *)
Lemma run_role_scopes_not_get ss q :
  method_has_GET rq = false ->
  run_role_scopes rq db ss view_kwargs q = Ok q.
Proof.
  intros Hm. induction ss as [|[[k p] f] ss IH]; [reflexivity|].
  simpl. unfold role_scope at 1. rewrite Hm, andb_false_r. exact IH.
Qed.

End ScopingMore.

(** X22. On a GET scoped to a target user by one of the nine user
    parameters, and by no other of them, [EventList.query] raises
    Forbidden when the caller may not read the target user's data,
    before the user is looked up; and when the caller may and the user
    does not exist, it raises [ObjectNotFound] on the parameter the
    scoping passes to [safe_query], which for [user_track_organizer_id]
    is 'user_organizer_id'. *)
Theorem target_user_checked (rq : Request) (db : DB)
  (view_kwargs : gmap string val) (k p : string) (f : RoleFilter)
  (v : val) (n : Z) :
  (k, p, f) ∈ role_scopes ->
  method_has_GET rq = true ->
  view_kwargs !! k = Some v ->
  truthy v = true ->
  py_int rq v = Ok n ->
  (forall k', k' ∈ map (fun s => fst (fst s)) role_scopes -> k' <> k ->
              truthy (dict_get view_kwargs k') = false) ->
  (is_user_itself rq n = false ->
   EventList_query rq db view_kwargs
   = Raise (ForbiddenError "" "Access Forbidden"))
  /\ (is_user_itself rq n = true -> users db v = None ->
      EventList_query rq db view_kwargs
      = Raise (ObjectNotFound p "{}: {} not found" [VStr "User"; v])).
Proof.
  intros Hin Hget Hv Ht Hn Hothers.
  unfold EventList_query.
  rewrite (run_role_scopes_only rq db view_kwargs role_scopes k p f _
             role_scopes_distinct Hin Hothers).
  unfold role_scope, dict_get, dict_index, safe_query_user.
  rewrite Hv. simpl. rewrite Ht, Hget. simpl. rewrite Hn. simpl.
  split.
  - now intros ->.
  - intros -> ->. reflexivity.
Qed.

(** User 1 asks for the events on which user 2 is track organizer; and
    for those of user 1, were user 1 not to exist. *)
Lemma target_user_checked_witness :
  EventList_query Sample.alice_get Sample.db
    {["user_track_organizer_id" := VInt 2]}
  = Raise (ForbiddenError "" "Access Forbidden")
  /\ EventList_query Sample.alice_get Sample.orphans
       {["user_track_organizer_id" := VInt 1]}
     = Raise (ObjectNotFound "user_organizer_id" "{}: {} not found"
                             [VStr "User"; VInt 1]).
Proof.
  split.
  - refine (proj1 (target_user_checked Sample.alice_get Sample.db
                     {["user_track_organizer_id" := VInt 2]}
                     "user_track_organizer_id" "user_organizer_id"
                     (Is TRACK_ORGANIZER) (VInt 2) 2 _ _ _ _ _ _) _);
      try reflexivity.
    + apply list_elem_of_In. simpl. tauto.
    + intros k' _ Hne. unfold dict_get. now rewrite lookup_singleton_ne.
  - refine (proj2 (target_user_checked Sample.alice_get Sample.orphans
                     {["user_track_organizer_id" := VInt 1]}
                     "user_track_organizer_id" "user_organizer_id"
                     (Is TRACK_ORGANIZER) (VInt 1) 1 _ _ _ _ _ _) _ _);
      try reflexivity.
    + apply list_elem_of_In. simpl. tauto.
    + intros k' _ Hne. unfold dict_get. now rewrite lookup_singleton_ne.
Defined.

(** X23. On a request whose method does not contain 'GET',
    [EventList.query] ignores every route parameter: it returns the base
    query of the caller, raises nothing and resolves nothing. *)
Theorem query_ignores_scoping_unless_get (rq : Request) (db : DB)
  (view_kwargs : gmap string val) :
  method_has_GET rq = false ->
  EventList_query rq db view_kwargs = Ok (base_query rq db).
Proof.
  intros Hm. unfold EventList_query.
  rewrite run_role_scopes_not_get by assumption.
  unfold class_scope, discount_scope. simpl.
  now rewrite Hm, !andb_false_r.
Qed.

(** The admin's PATCH request with the parameter of another user. *)
Lemma query_ignores_scoping_unless_get_witness :
  EventList_query Sample.admin_patch Sample.orphans
    {["user_owner_id" := VInt 42]}
  = Ok (base_query Sample.admin_patch Sample.orphans).
Proof.
  apply (query_ignores_scoping_unless_get Sample.admin_patch Sample.orphans
           {["user_owner_id" := VInt 42]}).
  reflexivity.
Defined.

Lemma class_scope_hit rq k col (view_kwargs : gmap string val) q v :
  method_has_GET rq = true ->
  view_kwargs !! k = Some v ->
  truthy v = true ->
  class_scope rq k col view_kwargs q
  = Ok (fun e => all_events e && column_eq (col e) v).
Proof.
  intros Hget Hv Ht. unfold class_scope, dict_get, dict_index.
  rewrite Hv. simpl. now rewrite Ht, Hget.
Qed.

(** X24. A classification parameter replaces the query, for every caller
    and whatever the scoping blocks before it returned: on a GET without
    discount-code parameter, the query [EventList.query] returns selects
    exactly the events of the sub-topic when [event_sub_topic_id] is
    present; else exactly those of the topic when [event_topic_id] is;
    else exactly those of the type when [event_type_id] is. *)
Theorem classification_replaces (rq : Request) (db : DB)
  (view_kwargs : gmap string val) (q : Query) :
  EventList_query rq db view_kwargs = Ok q ->
  method_has_GET rq = true ->
  truthy (dict_get view_kwargs "discount_code_id") = false ->
  (forall v, view_kwargs !! "event_sub_topic_id" = Some v ->
             truthy v = true ->
             forall e, q e = column_eq (Event.event_sub_topic_id e) v)
  /\ (truthy (dict_get view_kwargs "event_sub_topic_id") = false ->
      forall v, view_kwargs !! "event_topic_id" = Some v ->
                truthy v = true ->
                forall e, q e = column_eq (Event.event_topic_id e) v)
  /\ (truthy (dict_get view_kwargs "event_sub_topic_id") = false ->
      truthy (dict_get view_kwargs "event_topic_id") = false ->
      forall v, view_kwargs !! "event_type_id" = Some v ->
                truthy v = true ->
                forall e, q e = column_eq (Event.event_type_id e) v).
Proof.
  unfold EventList_query. intros H Hget Hdisc.
  destruct (run_role_scopes rq db role_scopes view_kwargs _) as [q0|];
    [|discriminate].
  rewrite result_bind_ok in H.
  destruct (class_scope rq "event_type_id" _ view_kwargs q0) as [q1|] eqn:H1;
    [|discriminate].
  rewrite result_bind_ok in H.
  destruct (class_scope rq "event_topic_id" _ view_kwargs q1) as [q2|] eqn:H2;
    [|discriminate].
  rewrite result_bind_ok in H.
  destruct (class_scope rq "event_sub_topic_id" _ view_kwargs q2) as [q3|]
    eqn:H3; [|discriminate].
  rewrite result_bind_ok, discount_scope_skip in H by assumption.
  injection H as <-.
  split; [|split].
  - intros v Hv Ht e.
    rewrite (class_scope_hit rq _ _ view_kwargs q2 v Hget Hv Ht) in H3.
    now injection H3 as <-.
  - intros Hsub v Hv Ht e.
    rewrite class_scope_skip in H3 by assumption. injection H3 as <-.
    rewrite (class_scope_hit rq _ _ view_kwargs q1 v Hget Hv Ht) in H2.
    now injection H2 as <-.
  - intros Hsub Htopic v Hv Ht e.
    rewrite class_scope_skip in H3 by assumption. injection H3 as <-.
    rewrite class_scope_skip in H2 by assumption. injection H2 as <-.
    rewrite (class_scope_hit rq _ _ view_kwargs q0 v Hget Hv Ht) in H1.
    now injection H1 as <-.
Qed.

(** An anonymous caller on the route of topic 4, with a type beside it:
    the topic decides. *)
Lemma classification_replaces_witness :
  (fun e => column_eq (Event.event_topic_id e) (VInt 4)) Sample.typed_draft
  = column_eq (Event.event_topic_id Sample.typed_draft) (VInt 4).
Proof.
  refine (proj1 (proj2 (classification_replaces Sample.anonymous_get
                          Sample.db
                          (<["event_type_id" := VInt 3]>
                             {["event_topic_id" := VInt 4]})
                          (fun e => column_eq (Event.event_topic_id e)
                                              (VInt 4)) _ _ _))
                _ (VInt 4) _ _ Sample.typed_draft); reflexivity.
Defined.

(** X25. A listing by discount code that [EventList.query] grants was
    asked by a co-organizer of the event [get_id] resolved: when the
    query is returned on a GET with a [discount_code_id], [get_id] has
    returned with an ['id'] on which the caller has co-organizer access,
    and the query selects exactly the events of that discount code. *)
Theorem discount_listing_needs_coorganizer (rq : Request) (db : DB)
  (view_kwargs : gmap string val) (q : Query) (v : val) :
  EventList_query rq db view_kwargs = Ok q ->
  method_has_GET rq = true ->
  view_kwargs !! "discount_code_id" = Some v ->
  truthy v = true ->
  (exists vk' event_id,
     get_id db view_kwargs = Ok vk'
     /\ vk' !! "id" = Some event_id
     /\ is_coorganizer rq event_id = true)
  /\ forall e, q e = column_eq (Event.discount_code_id e) v.
Proof.
  unfold EventList_query. intros H Hget Hv Ht.
  destruct (run_role_scopes rq db role_scopes view_kwargs _) as [q0|];
    [|discriminate].
  rewrite result_bind_ok in H.
  destruct (class_scope rq "event_type_id" _ view_kwargs q0) as [q1|];
    [|discriminate].
  rewrite result_bind_ok in H.
  destruct (class_scope rq "event_topic_id" _ view_kwargs q1) as [q2|];
    [|discriminate].
  rewrite result_bind_ok in H.
  destruct (class_scope rq "event_sub_topic_id" _ view_kwargs q2) as [q3|];
    [|discriminate].
  rewrite result_bind_ok in H.
  unfold discount_scope, dict_get in H. rewrite Hv in H. simpl in H.
  rewrite Ht, Hget in H. simpl in H.
  destruct (get_id db view_kwargs) as [vk'|] eqn:Hid; [|discriminate].
  rewrite result_bind_ok in H. unfold dict_index in H.
  destruct (vk' !! "id") as [event_id|] eqn:Hi; [|discriminate].
  simpl in H.
  destruct (is_coorganizer rq event_id) eqn:Hco; [|discriminate].
  simpl in H.
  rewrite (get_id_frame db view_kwargs vk' "discount_code_id" Hid)
    in H by done.
  rewrite Hv in H. simpl in H. injection H as <-.
  split; [eauto 6|reflexivity].
Qed.

(** X26. The user scopings only ever narrow the listing: on a request
    without classification or discount-code parameter, whatever user
    parameters it carries, every event [EventList.query] selects is
    selected by the caller's base query. *)
Theorem user_scoping_narrows (rq : Request) (db : DB)
  (view_kwargs : gmap string val) (q : Query) :
  EventList_query rq db view_kwargs = Ok q ->
  (forall k, k ∈ replacement_keys ->
             truthy (dict_get view_kwargs k) = false) ->
  forall e, q e = true -> base_query rq db e = true.
Proof.
  intros H Hnone.
  rewrite EventList_query_no_replacement in H by assumption.
  exact (run_role_scopes_narrows rq db view_kwargs _ _ _ H).
Qed.

(** User 1 lists the events on which they are owner: the draft 11 is
    among them, and the base query selects it. *)
Lemma user_scoping_narrows_witness :
  base_query Sample.alice_get Sample.db
    (Sample.event 11 "draft" 200 300 None 0) = true.
Proof.
  apply (user_scoping_narrows Sample.alice_get Sample.db
           {["user_owner_id" := VInt 1]}
           (join_roles Sample.db 1 (Is OWNER)
              (base_query Sample.alice_get Sample.db))).
  - reflexivity.
  - apply Forall_forall. repeat constructor.
  - reflexivity.
Defined.

(** User 1, co-organizer of event 11, lists the events of its discount
    code 6. *)
Lemma discount_listing_needs_coorganizer_witness :
  exists vk' event_id,
    get_id Fixture.codes {["discount_code_id" := VInt 6]} = Ok vk'
    /\ vk' !! "id" = Some event_id
    /\ is_coorganizer Fixture.organizer_get event_id = true.
Proof.
  refine (proj1 (discount_listing_needs_coorganizer Fixture.organizer_get
                   Fixture.codes {["discount_code_id" := VInt 6]}
                   (fun e => all_events e
                             && column_eq (Event.discount_code_id e) (VInt 6))
                   (VInt 6) _ _ _ _)); reflexivity.
Defined.

(** ** More on fetching one event *)

(** X27. [after_get_object] lets a fetch through exactly when there is no
    event, or the event is not a draft, or the caller is logged in and
    has co-organizer access to it; the one exception it raises is the
    [ObjectNotFound] on '{id}'. *)
Theorem after_get_object_outcome (rq : Request) (event : option Event.t) :
  (after_get_object rq event = Ok tt
   <-> event = None
       \/ exists ev, event = Some ev
                     /\ (Event.state ev <> Some "draft"
                         \/ (is_logged_in rq = true
                             /\ is_coorganizer rq (VInt (Event.id ev))
                                = true)))
  /\ (forall e, after_get_object rq event = Raise e ->
                e = ObjectNotFound "{id}" "Event: not found" []).
Proof.
  unfold after_get_object, str_eqb. destruct event as [ev|].
  - destruct (bool_decide_reflect (Event.state ev = Some "draft"))
      as [Hd|Hd].
    + destruct (is_logged_in rq) eqn:Hl,
               (is_coorganizer rq (VInt (Event.id ev))) eqn:Hc; simpl.
      * split; [|intros e H; discriminate].
        split; [|reflexivity]. intros _. right. exists ev. auto.
      * split; [|now intros e [= <-]].
        split; [intros H; discriminate|].
        intros [H|(ev' & [= <-] & [H|[_ H]])];
          congruence.
      * split; [|now intros e [= <-]].
        split; [intros H; discriminate|].
        intros [H|(ev' & [= <-] & [H|[H _]])];
          congruence.
      * split; [|now intros e [= <-]].
        split; [intros H; discriminate|].
        intros [H|(ev' & [= <-] & [H|[H _]])];
          congruence.
    + split; [|intros e H; discriminate]. split; [|reflexivity].
      intros _. right. exists ev. auto.
  - split; [|intros e H; discriminate]. split; auto.
Qed.

(** ** Upcoming events *)

Global Instance starts_no_later_total : Total starts_no_later.
Proof. intros a b. unfold starts_no_later. lia. Qed.

Global Instance starts_no_later_trans : Transitive starts_no_later.
Proof. intros a b c. unfold starts_no_later. lia. Qed.

Lemma column_gt_spec c v :
  column_gt c v = true <-> exists n, c = Some n /\ v < n.
Proof.
  unfold column_gt. destruct c as [n|].
  - rewrite Z.ltb_lt. split; [eauto|]. now intros (m & [= <-] & H).
  - split; [discriminate|]. now intros (m & H & _).
Qed.

Lemma not_null_spec {A} (c : option A) : not_null c = true <-> c <> None.
Proof. destruct c; simpl; split; congruence. Qed.

Lemma StronglySorted_lookup {A} (R : relation A) (l : list A) i j a b :
  StronglySorted R l -> (i < j)%nat ->
  l !! i = Some a -> l !! j = Some b -> R a b.
Proof.
  intros Hs. revert i j. induction Hs as [|x l Hs IH Hall]; intros i j Hij.
  - intros H. now rewrite lookup_nil in H.
  - destruct j as [|j]; [lia|]. destruct i as [|i]; simpl.
    + intros [= <-] Hb. rewrite Forall_forall in Hall.
      apply Hall. eapply list_elem_of_lookup_2, Hb.
    + apply IH. lia.
Qed.

Lemma upcoming_query_elem_of now events r :
  r ∈ UpcomingEventList_query now events
  <-> r ∈ events /\ upcoming now r = true.
Proof.
  unfold UpcomingEventList_query.
  rewrite merge_sort_Permutation, !list_elem_of_In. apply filter_In.
Qed.

(** X28. [UpcomingEventList.query] returns, once for each time it is
    among the events, every event that is published and public, starts
    and ends strictly after the current time, and is either promoted or
    complete: with image, logo, type, topic and sub-topic, a ticket that
    is not deleted, not hidden and still on sale, and a social link named
    'twitter'.  It returns no other event, whoever asks. *)
Theorem upcoming_events_listed (current_time : Z) (events : list Listed.t) :
  (forall r,
     r ∈ UpcomingEventList_query current_time events
     <-> r ∈ events
         /\ Event.state (Listed.event r) = Some "published"
         /\ Listed.privacy r = Some "public"
         /\ (exists s, Event.starts_at (Listed.event r) = Some s
                       /\ current_time < s)
         /\ (exists e, Event.ends_at (Listed.event r) = Some e
                       /\ current_time < e)
         /\ (Listed.is_promoted r = Some true
             \/ (Event.original_image_url (Listed.event r) <> None
                 /\ Listed.logo_url r <> None
                 /\ Event.event_type_id (Listed.event r) <> None
                 /\ Event.event_topic_id (Listed.event r) <> None
                 /\ Event.event_sub_topic_id (Listed.event r) <> None
                 /\ (exists t, t ∈ Listed.tickets r
                               /\ Ticket.deleted_at t = None
                               /\ Ticket.is_hidden t = Some false
                               /\ exists n, Ticket.sales_ends_at t = Some n
                                            /\ current_time < n)
                 /\ (exists l, l ∈ Listed.social_link r
                               /\ SocialLink.name l = Some "twitter"))))
  /\ UpcomingEventList_query current_time events
     ≡ₚ List.filter (upcoming current_time) events.
Proof.
  split; [|apply merge_sort_Permutation].
  intros r. rewrite upcoming_query_elem_of.
  assert (Hticket : forall t,
            ticket_on_sale current_time t = true
            <-> Ticket.deleted_at t = None
                /\ Ticket.is_hidden t = Some false
                /\ exists n, Ticket.sales_ends_at t = Some n
                             /\ current_time < n).
  { intros t. unfold ticket_on_sale.
    rewrite !andb_true_iff, negb_true_iff, bool_decide_eq_true,
      column_gt_spec.
    destruct (Ticket.deleted_at t); simpl; intuition congruence. }
  assert (Hcomplete :
            complete current_time r = true
            <-> Event.original_image_url (Listed.event r) <> None
                /\ Listed.logo_url r <> None
                /\ Event.event_type_id (Listed.event r) <> None
                /\ Event.event_topic_id (Listed.event r) <> None
                /\ Event.event_sub_topic_id (Listed.event r) <> None
                /\ (exists t, t ∈ Listed.tickets r
                              /\ Ticket.deleted_at t = None
                              /\ Ticket.is_hidden t = Some false
                              /\ exists n, Ticket.sales_ends_at t = Some n
                                           /\ current_time < n)
                /\ (exists l, l ∈ Listed.social_link r
                              /\ SocialLink.name l = Some "twitter")).
  { unfold complete, str_eqb.
    rewrite !andb_true_iff, !not_null_spec, !existsb_exists.
    setoid_rewrite bool_decide_eq_true. setoid_rewrite Hticket.
    setoid_rewrite <- list_elem_of_In. tauto. }
  unfold upcoming, str_eqb.
  rewrite !andb_true_iff, orb_true_iff, !bool_decide_eq_true,
    !column_gt_spec, Hcomplete.
  tauto.
Qed.

(** X29. The events [UpcomingEventList.query] returns are in the order of
    their start: of two of them, the one that comes first starts no
    later than the other; each has a start. *)
Theorem upcoming_events_ordered (current_time : Z) (events : list Listed.t)
  (i j : nat) (a b : Listed.t) :
  (i < j)%nat ->
  UpcomingEventList_query current_time events !! i = Some a ->
  UpcomingEventList_query current_time events !! j = Some b ->
  exists s t,
    Event.starts_at (Listed.event a) = Some s
    /\ Event.starts_at (Listed.event b) = Some t
    /\ s <= t.
Proof.
  intros Hij Ha Hb.
  assert (Hstart : forall r,
            r ∈ UpcomingEventList_query current_time events ->
            exists s, Event.starts_at (Listed.event r) = Some s).
  { intros r Hr. apply upcoming_query_elem_of in Hr as [_ Hr].
    unfold upcoming in Hr. rewrite !andb_true_iff in Hr.
    destruct Hr as [[[[Hs _] _] _] _].
    apply column_gt_spec in Hs as (s & Hs & _). eauto. }
  destruct (Hstart a) as [s Hs]; [eapply list_elem_of_lookup_2, Ha|].
  destruct (Hstart b) as [t Ht]; [eapply list_elem_of_lookup_2, Hb|].
  exists s, t. split; [assumption|]. split; [assumption|].
  assert (Hsorted : StronglySorted starts_no_later
                      (UpcomingEventList_query current_time events)).
  { apply Sorted_StronglySorted; [apply _|].
    unfold UpcomingEventList_query. apply Sorted_merge_sort, _. }
  pose proof (StronglySorted_lookup _ _ i j a b Hsorted Hij Ha Hb) as H.
  unfold starts_no_later in H. now rewrite Hs, Ht in H.
Qed.

(** At instant 100, of event 2, complete, starting at 300, and event 1,
    promoted, starting at 200, the promoted one comes first. *)
Lemma upcoming_events_ordered_witness :
  exists s t,
    Event.starts_at
      (Listed.event (Fixture.listed 1 200 (Some true) false [] []))
    = Some s
    /\ Event.starts_at
         (Listed.event
            (Fixture.listed 2 300 None true [Fixture.open_ticket]
                            [Fixture.twitter]))
       = Some t
    /\ s <= t.
Proof.
  apply (upcoming_events_ordered 100
           [ Fixture.listed 2 300 None true [Fixture.open_ticket]
                            [Fixture.twitter];
             Fixture.listed 3 50 (Some true) true [Fixture.open_ticket]
                            [Fixture.twitter];
             Fixture.listed 1 200 (Some true) false [] [] ]
           0 1).
  - lia.
  - vm_compute. reflexivity.
  - vm_compute. reflexivity.
Defined.

(** ** The relationship resource *)

(** X30. On a request on which no block of the table of [get_id] fires,
    [EventRelationship.before_get_object] resolves the event as [get_id]
    does: both return the same dictionary or raise the same exception. *)
Theorem relationship_resolves_like_get_id (db : DB)
  (view_kwargs : gmap string val) :
  (forall b, b ∈ branches ->
             test (guard b) (dict_get view_kwargs (key b)) = false) ->
  EventRelationship_before_get_object db view_kwargs
  = get_id db view_kwargs.
Proof.
  intros Hidle.
  change (run_identifier db view_kwargs
          = run_identifier db view_kwargs ≫= run_branches db branches).
  destruct (run_identifier db view_kwargs) as [vk0|] eqn:H0; [|reflexivity].
  rewrite result_bind_ok. symmetry. apply run_branches_idle.
  intros b Hb.
  destruct (run_branch_agree db b vk0 view_kwargs Hb) as [-> _];
    [|now apply Hidle].
  intros k Hk. now apply (run_identifier_keeps db).
Qed.

(** The relationships of the event 'fossasia', which no event is. *)
Lemma relationship_resolves_like_get_id_witness :
  EventRelationship_before_get_object Sample.orphans
    {["identifier" := VStr "fossasia"]}
  = get_id Sample.orphans {["identifier" := VStr "fossasia"]}.
Proof.
  apply (relationship_resolves_like_get_id Sample.orphans
           {["identifier" := VStr "fossasia"]}).
  apply Forall_forall. unfold branches. repeat constructor.
Defined.
